(** * aiohypixel-py: the rate-limit gate and the retrying request executor

    A shallow embedding of [aiohypixel/ratelimiter.py], [aiohypixel/errors.py]
    and [aiohypixel/http.py], and the properties of the request pipeline
    that follow from it.

    Python integers are [Z].  The asyncio event loop is single threaded, so
    a coroutine is a state transformer over the client; the points where it
    awaits are the points where the loop's clock moves and due timers run. *)

From Stdlib Require Import ZArith List String Ascii Bool Lia.
Import ListNotations.

Open Scope string_scope.
Open Scope list_scope.
Open Scope Z_scope.

(** ** Python values that reach [int()] and the format comparison *)

Inductive PyVal : Type :=
| PyNone
| PyInt (z : Z)
| PyStr (s : string).

(** ** aiohttp's response, as far as the client reads it *)

#[warnings="-register-all"]
Inductive JSON : Type :=
| JNull
| JBool (b : bool)
| JNumber (z : Z)
| JString (s : string)
| JArray (items : list JSON)
| JObject (members : list (string * JSON)).

(** errors.py: the exception classes of the library. *)
Inductive ErrorClass : Type :=
| AIOHypixelException
| HTTPException
| DataMissing
| DataInvalid
| TooManyRequests
| Forbidden
| HypixelServerError.

Module Response.

(** [json_] is what [await response.json()] does: a decoded document or
    the exception it raises.  The exception is named by its class only,
    since a response is stored inside library exceptions. *)
Inductive JsonFailure : Type :=
| JSONDecodeError
| ContentTypeError.

Record ClientResponse : Type := mkResponse {
  status : Z;
  headers : list (string * string);   (* CIMultiDict: ordered, keys compared without case *)
  read_ : list ascii;                 (* await response.read() *)
  text_ : string;                     (* await response.text() *)
  json_ : JsonFailure + JSON          (* await response.json() *)
}.

End Response.
Import Response.

(** Exceptions a call of [request] can end in.  [Lib cls args] is an
    instance of a class of errors.py with Python's [args] tuple; [None]
    stands for the Python value [None] passed as an argument. *)
Inductive PyExc : Type :=
| ValueError (msg : string)
| TypeError (msg : string)
| JsonError (e : JsonFailure)
| ClientConnectionError
| Lib (cls : ErrorClass) (args : list (option ClientResponse)).

Inductive Payload : Type :=
| PBytes (b : list ascii)
| PText (s : string)
| PJson (j : JSON)
| PResponse (r : ClientResponse).

(** ** [int()] on a header value *)

Definition is_space (c : ascii) : bool :=
  let n := Z.of_N (N_of_ascii c) in
  ((9 <=? n) && (n <=? 13)) || ((28 <=? n) && (n <=? 32)).

Definition digit_of (c : ascii) : option Z :=
  let n := Z.of_N (N_of_ascii c) in
  if (48 <=? n) && (n <=? 57) then Some (n - 48) else None.

Fixpoint lstrip (s : string) : string :=
  match s with
  | EmptyString => EmptyString
  | String c s' => if is_space c then lstrip s' else s
  end.

Fixpoint rev_string (acc s : string) : string :=
  match s with
  | EmptyString => acc
  | String c s' => rev_string (String c acc) s'
  end.

Definition strip (s : string) : string :=
  rev_string EmptyString (lstrip (rev_string EmptyString (lstrip s))).

(** Decimal digits, a single underscore allowed between two digits. *)
Fixpoint digits (acc : Z) (after_digit : bool) (s : string) : option Z :=
  match s with
  | EmptyString => if after_digit then Some acc else None
  | String c s' =>
      if Ascii.eqb c "_"%char
      then if after_digit then digits acc false s' else None
      else match digit_of c with
           | Some d => digits (acc * 10 + d) true s'
           | None => None
           end
  end.

(** [int(s)] for an ASCII [str] in base 10: surrounding white space, an
    optional sign, digits. *)
Definition int_of_str (s : string) : option Z :=
  match strip s with
  | String "+"%char r => digits 0 false r
  | String "-"%char r => option_map Z.opp (digits 0 false r)
  | t => digits 0 false t
  end.

Definition int_none_msg : string :=
  "int() argument must be a string, a bytes-like object or a real number, not 'NoneType'".

Definition int_literal_msg (s : string) : string :=
  ("invalid literal for int() with base 10: '" ++ s ++ "'")%string.

Definition py_int (v : PyVal) : PyExc + Z :=
  match v with
  | PyNone => inl (TypeError int_none_msg)
  | PyInt z => inr z
  | PyStr s => match int_of_str s with
               | Some z => inr z
               | None => inl (ValueError (int_literal_msg s))
               end
  end.

(** ** [headers.get(key, default)] on a case-insensitive multi dict *)

Definition lower (c : ascii) : ascii :=
  let n := N_of_ascii c in
  if ((65 <=? n) && (n <=? 90))%N then ascii_of_N (n + 32) else c.

Fixpoint lower_str (s : string) : string :=
  match s with
  | EmptyString => EmptyString
  | String c s' => String (lower c) (lower_str s')
  end.

Fixpoint getone (h : list (string * string)) (key : string) : option string :=
  match h with
  | [] => None
  | (k, v) :: h' =>
      if String.eqb (lower_str k) (lower_str key) then Some v else getone h' key
  end.

Definition headers_get (h : list (string * string)) (key : string)
    (default : PyVal) : PyVal :=
  match getone h key with
  | Some v => PyStr v
  | None => default
  end.

(** ** ratelimiter.py *)

(** The [Event] flag, with the part of the event loop the limiter uses:
    the loop's clock and the due times of the [lock.set] callbacks that
    [call_later] has scheduled and that have not run yet. *)
Record RateLimiter : Type := mkRateLimiter {
  lock : bool;
  now : Z;
  timers : list Z
}.

Module Limiter.

(** [RateLimiter.__init__]: the flag starts set. *)
Definition init (t : Z) : RateLimiter :=
  mkRateLimiter true t [].

(** One turn of the loop: callbacks that are due run, each sets the flag. *)
Definition run_due (rl : RateLimiter) : RateLimiter :=
  if existsb (fun d => d <=? now rl) (timers rl)
  then mkRateLimiter true (now rl) (filter (fun d => now rl <? d) (timers rl))
  else rl.

(** Time passes while the task awaits something else. *)
Definition tick (dt : Z) (rl : RateLimiter) : RateLimiter :=
  run_due (mkRateLimiter (lock rl) (now rl + dt) (timers rl)).

Fixpoint earliest (d : Z) (ds : list Z) : Z :=
  match ds with
  | [] => d
  | d' :: ds' => earliest (Z.min d d') ds'
  end.

(** [await self.lock.wait()]: returns at once when the flag is set;
    otherwise the task sleeps until the first scheduled [lock.set] runs.
    With the flag clear and nothing scheduled it never wakes up. *)
Definition acquire (rl : RateLimiter) : option RateLimiter :=
  if lock rl then Some rl
  else match timers rl with
       | [] => None
       | d :: ds =>
           Some (run_due (mkRateLimiter false (Z.max (now rl) (earliest d ds))
                                        (timers rl)))
       end.

(** [self.lock.clear(); self.loop.call_later(after, self.lock.set)].
    The handle [call_later] returns is dropped. *)
Definition release (after : Z) (rl : RateLimiter) : RateLimiter :=
  mkRateLimiter false (now rl) (timers rl ++ [now rl + after]).

End Limiter.

(** ** http.py *)

(** What the remote end will answer to the next GETs, with the time each
    exchange takes. *)
Record Exchange : Type := mkExchange {
  took : Z;
  reply : ClientResponse
}.

Inductive Event : Type :=
| EvAcquire
| EvGet (url : string)
| EvRelease (after : Z).

Record HTTPClient : Type := mkHTTPClient {
  retry_attempts : Z;
  ratelimiter : RateLimiter;
  session : list Exchange;
  log : list Event            (* ghost: the calls made so far, oldest first *)
}.

Inductive Outcome (A : Type) : Type :=
| Returned (a : A)
| Raised (e : PyExc)
| Suspended.                   (* awaiting something that never happens *)
Arguments Returned {A} a.
Arguments Raised {A} e.
Arguments Suspended {A}.

Definition M (A : Type) : Type := HTTPClient -> HTTPClient * Outcome A.

Definition ret {A} (a : A) : M A := fun self => (self, Returned a).

Definition raise {A} (e : PyExc) : M A := fun self => (self, Raised e).

Definition bind {A B} (m : M A) (k : A -> M B) : M B :=
  fun self =>
    match m self with
    | (self', Returned a) => k a self'
    | (self', Raised e) => (self', Raised e)
    | (self', Suspended) => (self', Suspended)
    end.

Declare Scope py_scope.
Delimit Scope py_scope with py.
Notation "x <- m ;; k" := (bind m (fun x => k))
  (at level 61, m at next level, right associativity) : py_scope.
Notation "m ;;; k" := (bind m (fun _ => k))
  (at level 61, right associativity) : py_scope.

Definition lift {A} (r : PyExc + A) : M A :=
  match r with
  | inl e => raise e
  | inr a => ret a
  end.

Definition with_log (e : Event) (self : HTTPClient) : HTTPClient :=
  mkHTTPClient (retry_attempts self) (ratelimiter self) (session self)
               (log self ++ [e]).

Definition with_limiter (rl : RateLimiter) (self : HTTPClient) : HTTPClient :=
  mkHTTPClient (retry_attempts self) rl (session self) (log self).

(** [await self.ratelimiter.acquire()] *)
Definition acquire : M unit := fun self =>
  match Limiter.acquire (ratelimiter self) with
  | Some rl => (with_log EvAcquire (with_limiter rl self), Returned tt)
  | None => (self, Suspended)
  end.

(** [self.ratelimiter.release(after)] *)
Definition release (after : Z) : M unit := fun self =>
  (with_log (EvRelease after)
            (with_limiter (Limiter.release after (ratelimiter self)) self),
   Returned tt).

Definition BASE_URL : string := "https://api.hypixel.net".

(** [self.BASE_URL + endpoint] *)
Definition url_of (endpoint : string) : string := (BASE_URL ++ endpoint)%string.
Arguments url_of : simpl never.

(** [await self.session.get(url, ...)]: the next exchange of the script;
    the clock moves by the time it took.  A session with nothing left to
    answer fails the way a dead connection does. *)
Definition session_get (url : string) : M ClientResponse := fun self =>
  match session self with
  | [] => (with_log (EvGet url) self, Raised ClientConnectionError)
  | x :: rest =>
      (mkHTTPClient (retry_attempts self)
                    (Limiter.tick (took x) (ratelimiter self))
                    rest
                    (log self ++ [EvGet url]),
       Returned (reply x))
  end.

Inductive DictKey : Type :=
| KStr (s : string)
| KInt (z : Z).

Definition key_eqb (a b : DictKey) : bool :=
  match a, b with
  | KStr s, KStr t => String.eqb s t
  | KInt x, KInt y => x =? y
  | _, _ => false
  end.

Definition ERRORS : list (DictKey * ErrorClass) :=
  [ (KStr "_", HTTPException);
    (KInt 400, DataMissing);
    (KInt 403, Forbidden);
    (KInt 422, DataInvalid);
    (KInt 429, TooManyRequests) ].

Fixpoint dict_get {V} (d : list (DictKey * V)) (k : DictKey) (default : V) : V :=
  match d with
  | [] => default
  | (k', v) :: d' => if key_eqb k' k then v else dict_get d' k default
  end.

(** [self.ERRORS.get(status, self.ERRORS["_"])] *)
Definition error_for (status : Z) : ErrorClass :=
  dict_get ERRORS (KInt status) (dict_get ERRORS (KStr "_") HTTPException).

Definition ResponseFormat : list string :=
  ["raw"; "text"; "json"; "auto"; "response"].

Definition format_msg : string :=
  "Format must be one of the following: ('raw', 'text', 'json', 'auto', 'response')".

Definition is_str (v : PyVal) (s : string) : bool :=
  match v with
  | PyStr t => String.eqb t s
  | _ => false
  end.

Definition response_json (response : ClientResponse) : Outcome Payload :=
  match json_ response with
  | inr j => Returned (PJson j)
  | inl e => Raised (JsonError e)
  end.

(** [HTTPClient.response_as] *)
Definition response_as (response : ClientResponse) (response_format : PyVal)
    : Outcome Payload :=
  if is_str response_format "raw" then Returned (PBytes (read_ response))
  else if is_str response_format "text" then Returned (PText (text_ response))
  else if is_str response_format "json" then response_json response
  else if is_str response_format "auto" then
    match response_json response with
    | Raised (JsonError JSONDecodeError) => Returned (PText (text_ response))
    | o => o
    end
  else if is_str response_format "response" then Returned (PResponse response)
  else Raised (ValueError format_msg).

Definition rl_remaining_requests (h : list (string * string)) : PyExc + Z :=
  py_int (headers_get h "ratelimit-remaining" (PyInt 0)).

Definition rl_reset_after (h : list (string * string)) : PyExc + Z :=
  py_int (headers_get h "ratelimit-reset" (headers_get h "retry-after" PyNone)).

Definition rl_unlock_after (h : list (string * string)) : PyExc + Z :=
  py_int (headers_get h "retry-after" PyNone).

(** What one turn of the [for] loop leaves behind. *)
Inductive Step : Type :=
| Return (v : Payload)
| Continue (status : Z) (response : ClientResponse).

Open Scope py_scope.

(** The body of [for attempt in range(self.retry_attempts)]. *)
Definition request_attempt (endpoint : string) (response_format : PyVal)
    (attempt : Z) : M Step :=
  acquire ;;;
  response <- session_get (url_of endpoint) ;;
  let status := Response.status response in
  let headers := Response.headers response in
  remaining <- lift (rl_remaining_requests headers) ;;
  reset_after <- lift (rl_reset_after headers) ;;
  let rl_sleep_for :=
    if (remaining =? 0) && negb (status =? 429) then reset_after else 0 in
  if (200 <=? status) && (status <? 300) then
    release rl_sleep_for ;;;
    v <- (fun self => (self, response_as response response_format)) ;;
    ret (Return v)
  else
    rl_sleep_for <-
      (if status =? 429 then
         unlock_after <- lift (rl_unlock_after headers) ;;
         release unlock_after ;;;
         ret rl_sleep_for
       else if 500 <=? status then
         ret (1 + attempt * 2)
       else
         release rl_sleep_for ;;;
         raise (Lib (error_for status) [Some response])) ;;
    (fun self =>
       if attempt =? retry_attempts self - 1
       then release rl_sleep_for self
       else ret tt self) ;;;
    ret (Continue status response).

(** The loop; [status] and [response] are the variables it leaves to the
    code after it.  [inl] is a [return] from inside the loop. *)
Fixpoint request_loop (endpoint : string) (response_format : PyVal)
    (attempts : list Z) (status : option Z) (response : option ClientResponse)
    : M (Payload + option Z * option ClientResponse) :=
  match attempts with
  | [] => ret (inr (status, response))
  | attempt :: attempts' =>
      s <- request_attempt endpoint response_format attempt ;;
      match s with
      | Return v => ret (inl v)
      | Continue status' response' =>
          request_loop endpoint response_format attempts'
                       (Some status') (Some response')
      end
  end.

(** [range(n)] *)
Definition range (n : Z) : list Z :=
  map Z.of_nat (seq 0 (Z.to_nat n)).

Definition ge_none_msg : string :=
  "'>=' not supported between instances of 'NoneType' and 'int'".

(** [status >= 500] on an [Optional[int]] *)
Definition py_ge (status : option Z) (bound : Z) : PyExc + bool :=
  match status with
  | None => inl (TypeError ge_none_msg)
  | Some s => inr (bound <=? s)
  end.

(** [HTTPClient.request].  The query parameters only travel to the remote
    end, whose answers are the script in [session]. *)
Definition request (endpoint : string) (response_format : PyVal) : M Payload :=
  fun self =>
    (r <- request_loop endpoint response_format (range (retry_attempts self))
                       None None ;;
     match r with
     | inl v => ret v
     | inr (status, response) =>
         release 0 ;;;
         server_error <- lift (py_ge status 500) ;;
         if (server_error : bool) then raise (Lib HypixelServerError [])
         else match status with
              | Some s => raise (Lib (error_for s) [response])
              | None => raise (Lib (dict_get ERRORS (KStr "_") HTTPException)
                                   [response])
              end
     end) self.

Close Scope py_scope.

(** ** One turn of the loop, case by case *)

Ltac ztests :=
  repeat match goal with
    | |- context [?a =? ?b] => destruct (Z.eqb_spec a b); try lia
    | |- context [?a <=? ?b] => destruct (Z.leb_spec a b); try lia
    | |- context [?a <? ?b] => destruct (Z.ltb_spec a b); try lia
    end.

(** The delay the loop body computes before it looks at the status class. *)
Definition sleep_for (status remaining reset_after : Z) : Z :=
  if (remaining =? 0) && negb (status =? 429) then reset_after else 0.

Definition step_of (o : Outcome Payload) : Outcome Step :=
  match o with
  | Returned v => Returned (Return v)
  | Raised e => Raised e
  | Suspended => Suspended
  end.

Section Attempt.

Variables (endpoint : string) (response_format : PyVal) (attempt : Z).
Variables (self : HTTPClient) (rl : RateLimiter) (x : Exchange)
          (rest : list Exchange).

Hypothesis gate : Limiter.acquire (ratelimiter self) = Some rl.
Hypothesis script : session self = x :: rest.

Local Abbreviation r := (reply x).
Local Abbreviation n := (retry_attempts self).
Local Abbreviation rl' := (Limiter.tick (took x) rl).



Variables (rem rst : Z).
Hypothesis remaining_ok : rl_remaining_requests (headers r) = inr rem.
Hypothesis reset_ok : rl_reset_after (headers r) = inr rst.

Ltac run_attempt :=
  unfold request_attempt, bind, acquire, session_get;
  rewrite gate; cbn; rewrite script; cbn;
  rewrite remaining_ok; cbn; rewrite reset_ok; cbn.

Lemma attempt_success :
  200 <= status r < 300 ->
  request_attempt endpoint response_format attempt self =
    (mkHTTPClient n (Limiter.release (sleep_for (status r) rem rst) rl') rest
       (log self ++ [EvAcquire; EvGet (url_of endpoint);
                     EvRelease (sleep_for (status r) rem rst)]),
     step_of (response_as r response_format)).
Proof.
  intros Hs. run_attempt.
  destruct (Z.leb_spec 200 (status r)); [|lia].
  destruct (Z.ltb_spec (status r) 300); [|lia]. cbn.
  unfold release, with_log, with_limiter. cbn.
  repeat rewrite <- app_assoc. cbn.
  fold (sleep_for (status r) rem rst).
  destruct (response_as r response_format); reflexivity.
Qed.

Lemma attempt_client_error :
  status r < 200 \/ 300 <= status r < 500 ->
  status r <> 429 ->
  request_attempt endpoint response_format attempt self =
    (mkHTTPClient n (Limiter.release (sleep_for (status r) rem rst) rl') rest
       (log self ++ [EvAcquire; EvGet (url_of endpoint);
                     EvRelease (sleep_for (status r) rem rst)]),
     Raised (Lib (error_for (status r)) [Some r])).
Proof.
  intros Hs H429. run_attempt.
  replace ((200 <=? status r) && (status r <? 300)) with false
    by (symmetry; apply andb_false_iff; ztests; auto).
  destruct (Z.eqb_spec (status r) 429); [contradiction|].
  destruct (Z.leb_spec 500 (status r)); [lia|]. cbn.
  unfold release, with_log, with_limiter. cbn.
  repeat rewrite <- app_assoc. cbn.
  unfold sleep_for. destruct (Z.eqb_spec (status r) 429); [contradiction|].
  reflexivity.
Qed.

Lemma attempt_rate_limited_bad_header e :
  status r = 429 ->
  rl_unlock_after (headers r) = inl e ->
  request_attempt endpoint response_format attempt self =
    (mkHTTPClient n rl' rest (log self ++ [EvAcquire; EvGet (url_of endpoint)]),
     Raised e).
Proof.
  intros Hs He. run_attempt. rewrite Hs. cbn. rewrite He. cbn.
  rewrite <- app_assoc. reflexivity.
Qed.

Lemma attempt_rate_limited u :
  status r = 429 ->
  rl_unlock_after (headers r) = inr u ->
  attempt <> n - 1 ->
  request_attempt endpoint response_format attempt self =
    (mkHTTPClient n (Limiter.release u rl') rest
       (log self ++ [EvAcquire; EvGet (url_of endpoint); EvRelease u]),
     Returned (Continue 429 r)).
Proof.
  intros Hs Hu Hlast. run_attempt. rewrite Hs. cbn. rewrite Hu. cbn.
  destruct (Z.eqb_spec attempt (retry_attempts self - 1)); [contradiction|].
  unfold release, ret, with_log, with_limiter. cbn.
  repeat rewrite <- app_assoc. reflexivity.
Qed.

Lemma attempt_rate_limited_last u :
  status r = 429 ->
  rl_unlock_after (headers r) = inr u ->
  attempt = n - 1 ->
  request_attempt endpoint response_format attempt self =
    (mkHTTPClient n (Limiter.release 0 (Limiter.release u rl')) rest
       (log self ++ [EvAcquire; EvGet (url_of endpoint); EvRelease u;
                     EvRelease 0]),
     Returned (Continue 429 r)).
Proof.
  intros Hs Hu Hlast. run_attempt. rewrite Hs. cbn. rewrite Hu. cbn.
  destruct (Z.eqb_spec attempt (retry_attempts self - 1)); [|contradiction].
  rewrite andb_false_r.
  unfold release, ret, with_log, with_limiter. cbn.
  repeat rewrite <- app_assoc. reflexivity.
Qed.

Lemma attempt_server_error :
  500 <= status r ->
  attempt <> n - 1 ->
  request_attempt endpoint response_format attempt self =
    (mkHTTPClient n rl' rest (log self ++ [EvAcquire; EvGet (url_of endpoint)]),
     Returned (Continue (status r) r)).
Proof.
  intros Hs Hlast. run_attempt.
  destruct (Z.leb_spec 200 (status r)); [|lia].
  destruct (Z.ltb_spec (status r) 300); [lia|]. cbn.
  destruct (Z.eqb_spec (status r) 429); [lia|].
  destruct (Z.leb_spec 500 (status r)); [|lia]. cbn.
  destruct (Z.eqb_spec attempt (retry_attempts self - 1)); [contradiction|].
  unfold ret. cbn. repeat rewrite <- app_assoc. reflexivity.
Qed.

Lemma attempt_server_error_last :
  500 <= status r ->
  attempt = n - 1 ->
  request_attempt endpoint response_format attempt self =
    (mkHTTPClient n (Limiter.release (1 + attempt * 2) rl') rest
       (log self ++ [EvAcquire; EvGet (url_of endpoint);
                     EvRelease (1 + attempt * 2)]),
     Returned (Continue (status r) r)).
Proof.
  intros Hs Hlast. run_attempt.
  destruct (Z.leb_spec 200 (status r)); [|lia].
  destruct (Z.ltb_spec (status r) 300); [lia|]. cbn.
  destruct (Z.eqb_spec (status r) 429); [lia|].
  destruct (Z.leb_spec 500 (status r)); [|lia]. cbn.
  destruct (Z.eqb_spec attempt (retry_attempts self - 1)); [|contradiction].
  unfold release, ret, with_log, with_limiter. cbn.
  repeat rewrite <- app_assoc. reflexivity.
Qed.

End Attempt.

(** ** The gate *)

Module LimiterFacts.
Import Limiter.

(** The task that waits on the gate will be woken up. *)
Definition awake (rl : RateLimiter) : Prop :=
  lock rl = true \/ timers rl <> [].

Lemma earliest_in d ds : In (earliest d ds) (d :: ds).
Proof.
  revert d. induction ds as [|d' ds IH]; intros d; cbn.
  - now left.
  - destruct (IH (Z.min d d')) as [H|H].
    + destruct (Z.min_spec d d') as [[_ E]|[_ E]]; rewrite E in *.
      * left. exact H.
      * right. left. exact H.
    + right. right. exact H.
Qed.

Lemma init_awake t : awake (init t).
Proof. now left. Qed.


Lemma run_due_lock rl : lock rl = true -> lock (run_due rl) = true.
Proof. intros H. unfold run_due. now destruct (existsb _ _). Qed.

Lemma tick_lock dt rl : lock rl = true -> lock (tick dt rl) = true.
Proof. intros H. unfold tick. now apply run_due_lock. Qed.

Lemma acquire_awake rl :
  awake rl -> exists rl', acquire rl = Some rl' /\ lock rl' = true.
Proof.
  intros [H|H]; unfold acquire.
  - rewrite H. eauto.
  - destruct (lock rl) eqn:E; [eauto|].
    destruct (timers rl) as [|d ds] eqn:Et; [contradiction|].
    eexists. split; [reflexivity|].
    unfold run_due. cbn [now timers lock].
    replace (existsb _ (d :: ds)) with true; [reflexivity|].
    symmetry. apply existsb_exists. exists (earliest d ds). split.
    + apply earliest_in.
    + apply Z.leb_le. lia.
Qed.

(** A closed gate with one timer pending opens when that timer is due,
    and not before. *)
Lemma acquire_one_timer t d :
  acquire (mkRateLimiter false t [d]) = Some (mkRateLimiter true (Z.max t d) []).
Proof.
  unfold acquire, run_due. cbn.
  destruct (Z.leb_spec d (Z.max t d)); [|lia]. cbn.
  destruct (Z.ltb_spec (Z.max t d) d); [lia|]. reflexivity.
Qed.



End LimiterFacts.
Import LimiterFacts.

(** ** The loop and the code after it *)

Lemma range_nonpos n : n <= 0 -> range n = [].
Proof.
  intros H. unfold range. now replace (Z.to_nat n) with 0%nat by lia.
Qed.

Lemma range_pos n :
  1 <= n -> range n = 0 :: map Z.of_nat (seq 1 (Z.to_nat n - 1)).
Proof.
  intros H. unfold range.
  replace (Z.to_nat n) with (S (Z.to_nat n - 1)) at 1 by lia. reflexivity.
Qed.

Lemma acquire_open rl : lock rl = true -> Limiter.acquire rl = Some rl.
Proof. intros H. unfold Limiter.acquire. now rewrite H. Qed.

(** A first attempt that returns or raises decides the whole call. *)
Lemma request_first endpoint response_format self s o :
  1 <= retry_attempts self ->
  request_attempt endpoint response_format 0 self = (s, step_of o) ->
  request endpoint response_format self = (s, o).
Proof.
  intros Hn H. unfold request. rewrite (range_pos _ Hn).
  cbn [request_loop]. unfold bind at 1 2. rewrite H.
  destruct o; reflexivity.
Qed.

Lemma request_first_raises endpoint response_format self s e :
  1 <= retry_attempts self ->
  request_attempt endpoint response_format 0 self = (s, Raised e) ->
  request endpoint response_format self = (s, Raised e).
Proof. intros Hn H. now apply request_first. Qed.

(** The exceptions [int()] and [response_as] raise are not the one a
    comparison with [None] raises. *)
Lemma py_int_error v e : py_int v = inl e -> e <> TypeError ge_none_msg.
Proof.
  destruct v as [|z|s]; cbn.
  - intros [= <-]. discriminate.
  - discriminate.
  - destruct (int_of_str s); [discriminate|]. intros [= <-]. discriminate.
Qed.

Lemma response_as_error r fmt e :
  response_as r fmt = Raised e -> e <> TypeError ge_none_msg.
Proof.
  unfold response_as, response_json.
  repeat match goal with
         | |- context [if ?b then _ else _] => destruct b
         | |- context [match json_ r with _ => _ end] => destruct (json_ r) as [[]|]
         end; intros [= <-]; discriminate.
Qed.

Ltac split_attempt :=
  repeat (cbn;
          first
            [ match goal with
              | |- context [Limiter.acquire ?rl] =>
                  destruct (Limiter.acquire rl) eqn:?
              end
            | match goal with
              | |- context [match session ?s with _ => _ end] =>
                  destruct (session s) eqn:?
              end
            | match goal with
              | |- context [py_int ?v] => destruct (py_int v) eqn:?
              end
            | match goal with
              | |- context [response_as ?r ?f] =>
                  destruct (response_as r f) eqn:?
              end
            | match goal with
              | |- context [if ?b then _ else _] => destruct b eqn:?
              end ]).

(** Every turn of the loop that gets past the gate has made its GET, and
    whatever it raises comes after that. *)
Lemma attempt_events endpoint response_format attempt self self' o :
  request_attempt endpoint response_format attempt self = (self', o) ->
  (o = Suspended /\ self' = self) \/
  (retry_attempts self' = retry_attempts self /\
   o <> Raised (TypeError ge_none_msg) /\
   exists evs,
     log self' = log self ++ EvAcquire :: EvGet (url_of endpoint) :: evs).
Proof.
  unfold request_attempt, bind, acquire, session_get, lift,
    rl_remaining_requests, rl_reset_after, rl_unlock_after, release, ret, raise.
  split_attempt; intros [= <- <-]; cbn;
    try (left; split; reflexivity);
    right; (split; [reflexivity|]);
    (split;
     [ try discriminate;
       try (match goal with
            | H : py_int _ = inl ?e |- _ => intros [= ->]; now apply py_int_error in H
            end);
       try (match goal with
            | H : response_as _ _ = Raised ?e |- _ =>
                intros [= ->]; now apply response_as_error in H
            end)
     | eexists; repeat rewrite <- app_assoc; cbn; reflexivity ]).
Qed.

Lemma loop_events endpoint response_format attempts :
  forall status response self self' o,
    request_loop endpoint response_format attempts status response self
      = (self', o) ->
    retry_attempts self' = retry_attempts self /\
    o <> Raised (TypeError ge_none_msg) /\
    exists evs,
      log self' = log self ++ evs /\
      (forall e, o = Raised e -> In (EvGet (url_of endpoint)) evs) /\
      (forall status' response',
          o = Returned (inr (status', response')) ->
          status <> None \/ attempts <> [] -> status' <> None).
Proof.
  induction attempts as [|attempt attempts IH]; intros status response self self' o.
  - cbn. unfold ret. intros [= <- <-]. split; [reflexivity|].
    split; [discriminate|]. exists []. rewrite app_nil_r.
    split; [reflexivity|]. split; [discriminate|].
    intros status' response' [= <- <-] [H|H]; congruence.
  - cbn [request_loop]. unfold bind.
    destruct (request_attempt endpoint response_format attempt self)
      as [s1 o1] eqn:H1.
    apply attempt_events in H1.
    destruct H1 as [[-> ->]|(Hn & Hty & evs & Hlog)].
    + intros [= <- <-]. split; [reflexivity|]. split; [discriminate|].
      exists []. rewrite app_nil_r. repeat split; discriminate.
    + destruct o1 as [[v|status1 response1]|e|].
      * unfold ret. intros [= <- <-]. split; [exact Hn|].
        split; [discriminate|]. eexists. split; [exact Hlog|].
        split; discriminate.
      * intros H. apply IH in H. destruct H as (Hn' & Hty' & evs' & Hlog' & Hget & Hst).
        split; [congruence|]. split; [exact Hty'|].
        exists (EvAcquire :: EvGet (url_of endpoint) :: evs ++ evs').
        split; [|split].
        -- rewrite Hlog', Hlog, <- app_assoc. reflexivity.
        -- intros e _. right. now left.
        -- intros status' response' Ho _. eapply Hst; [exact Ho|].
           left. discriminate.
      * intros [= <- <-]. split; [exact Hn|].
        split; [intros [= ->]; now apply Hty|].
        eexists. split; [exact Hlog|]. split; [|discriminate].
        intros _ _. right. now left.
      * intros [= <- <-]. split; [exact Hn|]. split; [discriminate|].
        eexists. split; [exact Hlog|]. split; discriminate.
Qed.


(** A [ValueError], of either kind, is raised only after a GET. *)
Lemma request_value_error_after_get endpoint response_format self self' msg :
  request endpoint response_format self = (self', Raised (ValueError msg)) ->
  exists evs,
    log self' = log self ++ evs /\ In (EvGet (url_of endpoint)) evs.
Proof.
  unfold request, bind at 1.
  destruct (request_loop _ _ _ _ _ self) as [s o] eqn:H.
  apply loop_events in H. destruct H as (_ & _ & evs & Hlog & Hget & _).
  destruct o as [[v|[status response]]|e|]; cbn.
  - discriminate.
  - destruct status as [st|]; cbn; [|discriminate].
    destruct (500 <=? st); cbn; discriminate.
  - intros [= <- ->]. exists evs. split; [exact Hlog|]. now apply (Hget _ eq_refl).
  - discriminate.
Qed.

(** ** Runs of retried responses *)

(** The rate-limit headers of the answer are there and are integers. *)
Definition parses (x : Exchange) : Prop :=
  exists rem rst,
    rl_remaining_requests (headers (reply x)) = inr rem /\
    rl_reset_after (headers (reply x)) = inr rst.

Definition server_error (x : Exchange) : Prop :=
  500 <= status (reply x) /\ parses x.

Definition rate_limited (x : Exchange) (u : Z) : Prop :=
  status (reply x) = 429 /\ parses x /\
  rl_unlock_after (headers (reply x)) = inr u.

Definition get_events (endpoint : string) (k : nat) : list Event :=
  List.concat (repeat [EvAcquire; EvGet (url_of endpoint)] k).


Lemma attempts_cons k m :
  map Z.of_nat (seq k (S m)) = Z.of_nat k :: map Z.of_nat (seq (S k) m).
Proof. reflexivity. Qed.

Section Runs.

Variables (endpoint : string) (response_format : PyVal).

Lemma loop_server_errors xl rest :
  server_error xl ->
  forall xs k self status response,
    Z.of_nat k + Z.of_nat (List.length xs) + 1 = retry_attempts self ->
    session self = xs ++ xl :: rest ->
    Forall server_error xs ->
    awake (ratelimiter self) ->
    exists rl',
      request_loop endpoint response_format
                   (map Z.of_nat (seq k (S (List.length xs)))) status response self
      = (mkHTTPClient (retry_attempts self) rl' rest
           (log self ++ get_events endpoint (S (List.length xs))
              ++ [EvRelease (1 + (retry_attempts self - 1) * 2)]),
         Returned (inr (Some (Response.status (reply xl)), Some (reply xl)))).
Proof.
  intros [Hl (reml & rstl & Hreml & Hrstl)].
  induction xs as [|x xs IH]; intros k self status response Hn Hs Hall Haw;
    destruct (acquire_awake _ Haw) as (rl & Hacq & Hlock).
  - cbn [List.length]. rewrite attempts_cons.
    cbn [seq map request_loop]. unfold bind.
    rewrite (attempt_server_error_last endpoint response_format _ self rl xl rest
               Hacq Hs reml rstl Hreml Hrstl Hl) by (cbn in Hn; lia).
    replace (Z.of_nat k) with (retry_attempts self - 1) by (cbn in Hn; lia).
    cbn. eexists. reflexivity.
  - inversion Hall as [|? ? [Hx (rem & rst & Hrem & Hrst)] Hall']; subst.
    cbn [List.length]. rewrite attempts_cons.
    cbn [request_loop]. unfold bind at 1.
    rewrite (attempt_server_error endpoint response_format _ self rl x
               (xs ++ xl :: rest) Hacq Hs rem rst Hrem Hrst Hx)
      by (cbn in Hn; lia).
    edestruct (IH (S k)
                 (mkHTTPClient (retry_attempts self) (Limiter.tick (took x) rl)
                    (xs ++ xl :: rest)
                    (log self ++ [EvAcquire; EvGet (url_of endpoint)]))
                 (Some (Response.status (reply x))) (Some (reply x)))
      as (rl' & Hloop).
    + cbn [retry_attempts]. cbn in Hn. lia.
    + reflexivity.
    + exact Hall'.
    + left. cbn [ratelimiter]. now apply tick_lock.
    + exists rl'. etransitivity; [exact Hloop|].
      cbn [retry_attempts log]. rewrite <- app_assoc. reflexivity.
Qed.


(** Every attempt answered by a server error: the call makes all its
    attempts, releases the gate after the last one only, and raises a
    [HypixelServerError] built without arguments. *)
Lemma request_server_errors self xs rest :
  1 <= retry_attempts self ->
  List.length xs = Z.to_nat (retry_attempts self) ->
  session self = xs ++ rest ->
  Forall server_error xs ->
  awake (ratelimiter self) ->
  exists rl',
    request endpoint response_format self
    = (mkHTTPClient (retry_attempts self) rl' rest
         (log self ++ get_events endpoint (Z.to_nat (retry_attempts self))
            ++ [EvRelease (1 + (retry_attempts self - 1) * 2); EvRelease 0]),
       Raised (Lib HypixelServerError [])).
Proof.
  intros Hn Hlen Hs Hall Haw.
  destruct (exists_last (l := xs)) as (xs' & xl & ->).
  { intros ->. cbn in Hlen. lia. }
  rewrite length_app in Hlen. cbn in Hlen.
  apply Forall_app in Hall. destruct Hall as [Hall Hl].
  inversion Hl as [|? ? Hxl _]; subst.
  rewrite <- app_assoc in Hs. cbn in Hs.
  destruct (loop_server_errors xl rest Hxl xs' 0%nat self None None)
    as (rl' & Hloop); [lia|exact Hs|exact Hall|exact Haw|].
  unfold request, range. rewrite <- Hlen.
  replace (List.length xs' + 1)%nat with (S (List.length xs')) by lia.
  unfold bind at 1. rewrite Hloop.
  destruct Hxl as [H500 _].
  unfold bind, release, lift, py_ge, with_log, with_limiter, ret, raise.
  cbn [retry_attempts ratelimiter session log].
  destruct (Z.leb_spec 500 (status (reply xl))); [|lia].
  eexists. repeat rewrite <- app_assoc. reflexivity.
Qed.


End Runs.

(** ** Concrete runs *)

Module Fixtures.

(** An answer that took one second, with an empty JSON object as body. *)
Definition answer (status : Z) (headers : list (string * string)) : Exchange :=
  mkExchange 1 (mkResponse status headers [] "{}" (inr (JObject []))).

(** [HTTPClient.__init__] at time 0: a new limiter, nothing logged. *)
Definition client (retry_attempts : Z) (script : list Exchange) : HTTPClient :=
  mkHTTPClient retry_attempts (Limiter.init 0) script [].

Definition plenty : list (string * string) :=
  [("RateLimit-Remaining", "5"); ("RateLimit-Reset", "30")].

Definition used_up : list (string * string) :=
  [("RateLimit-Remaining", "0"); ("RateLimit-Reset", "30")].

Definition retry_later : list (string * string) :=
  [("RateLimit-Remaining", "0"); ("RateLimit-Reset", "10");
   ("Retry-After", "10")].


Definition get_key : Event := EvGet (url_of "/key").

End Fixtures.
Import Fixtures.

Example run_ok_plenty :
  request "/key" (PyStr "json") (client 3 [answer 200 plenty])
  = (mkHTTPClient 3 (mkRateLimiter false 1 [1]) []
       [EvAcquire; get_key; EvRelease 0],
     Returned (PJson (JObject []))).
Proof. reflexivity. Qed.

Example run_ok_used_up :
  request "/key" (PyStr "json") (client 3 [answer 200 used_up])
  = (mkHTTPClient 3 (mkRateLimiter false 1 [31]) []
       [EvAcquire; get_key; EvRelease 30],
     Returned (PJson (JObject []))).
Proof. reflexivity. Qed.

Example run_limited_then_ok :
  request "/key" (PyStr "json")
          (client 3 [answer 429 retry_later; answer 200 plenty])
  = (mkHTTPClient 3 (mkRateLimiter false 12 [12]) []
       [EvAcquire; get_key; EvRelease 10; EvAcquire; get_key; EvRelease 0],
     Returned (PJson (JObject []))).
Proof. reflexivity. Qed.

Example run_forbidden :
  request "/key" (PyStr "json") (client 3 [answer 403 plenty; answer 200 plenty])
  = (mkHTTPClient 3 (mkRateLimiter false 1 [1]) [answer 200 plenty]
       [EvAcquire; get_key; EvRelease 0],
     Raised (Lib Forbidden [Some (reply (answer 403 plenty))])).
Proof. reflexivity. Qed.

Example run_server_errors :
  request "/key" (PyStr "json")
          (client 3 [answer 500 plenty; answer 500 plenty; answer 500 plenty])
  = (mkHTTPClient 3 (mkRateLimiter false 3 [8; 3]) []
       [EvAcquire; get_key; EvAcquire; get_key; EvAcquire; get_key;
        EvRelease 5; EvRelease 0],
     Raised (Lib HypixelServerError [])).
Proof. reflexivity. Qed.

(** ** Measures on the log *)

(** The delays of the releases, in order. *)
Fixpoint releases (evs : list Event) : list Z :=
  match evs with
  | [] => []
  | EvRelease d :: evs' => d :: releases evs'
  | _ :: evs' => releases evs'
  end.

Fixpoint gets (evs : list Event) : nat :=
  match evs with
  | [] => 0
  | EvGet _ :: evs' => S (gets evs')
  | _ :: evs' => gets evs'
  end.

(** Releases that follow the head of the log before the next acquire. *)
Fixpoint releases_before_acquire (evs : list Event) : nat :=
  match evs with
  | [] => 0
  | EvAcquire :: _ => 0
  | EvRelease _ :: evs' => S (releases_before_acquire evs')
  | EvGet _ :: evs' => releases_before_acquire evs'
  end.

(** For each acquire of the log, the number of releases up to the next
    acquire or the end. *)
Fixpoint release_counts (evs : list Event) : list nat :=
  match evs with
  | [] => []
  | EvAcquire :: evs' => releases_before_acquire evs' :: release_counts evs'
  | _ :: evs' => release_counts evs'
  end.

Lemma releases_app a b : releases (a ++ b) = releases a ++ releases b.
Proof.
  induction a as [|[| |d] a IH]; cbn; [reflexivity|exact IH|exact IH|].
  now rewrite IH.
Qed.

Lemma gets_app a b : gets (a ++ b) = (gets a + gets b)%nat.
Proof.
  induction a as [|[| |d] a IH]; cbn; [reflexivity|exact IH| |exact IH].
  now rewrite IH.
Qed.

Lemma releases_get_events endpoint k : releases (get_events endpoint k) = [].
Proof. induction k as [|k IH]; [reflexivity|exact IH]. Qed.

Lemma gets_get_events endpoint k : gets (get_events endpoint k) = k.
Proof. induction k as [|k IH]; [reflexivity|]. cbn. f_equal. exact IH. Qed.

(** ** Properties of the gate *)




(** ** Properties of [request] *)

(** C10: with [retry_attempts <= 0] the loop body never runs: no GET is
    made, [status] is still [None] after the loop, the gate is released
    once, and [status >= 500] raises a [TypeError] in place of a library
    error. *)
Theorem request_without_attempts endpoint response_format self :
  retry_attempts self <= 0 ->
  request_loop endpoint response_format (range (retry_attempts self)) None None self
    = (self, Returned (inr (None, None))) /\
  request endpoint response_format self
    = (mkHTTPClient (retry_attempts self)
         (Limiter.release 0 (ratelimiter self)) (session self)
         (log self ++ [EvRelease 0]),
       Raised (TypeError ge_none_msg)).
Proof.
  intros Hn. unfold request. rewrite (range_nonpos _ Hn). split; reflexivity.
Qed.

Lemma request_without_attempts_witness :
  request "/key" (PyStr "json") (client 0 [answer 200 plenty])
  = (mkHTTPClient 0 (mkRateLimiter false 0 [0]) [answer 200 plenty] [EvRelease 0],
     Raised (TypeError ge_none_msg)).
Proof.
  apply (request_without_attempts "/key" (PyStr "json")
           (client 0 [answer 200 plenty])).
  cbn. lia.
Defined.

(** A format that [response_as] does not know. *)
Definition unrecognised (response_format : PyVal) : Prop :=
  forall s, In s ResponseFormat -> is_str response_format s = false.

Lemma response_as_unrecognised r response_format :
  unrecognised response_format ->
  response_as r response_format = Raised (ValueError format_msg).
Proof.
  intros H. unfold response_as.
  repeat (rewrite H by (cbn; tauto)). reflexivity.
Qed.

Lemma xml_unrecognised : unrecognised (PyStr "xml").
Proof.
  intros s Hs. cbn in Hs.
  repeat (destruct Hs as [<-|Hs]; [reflexivity|]). contradiction.
Qed.

(** C3 (as stated, refuted): with the format ["xml"] and a 200 answer the
    [ValueError] is raised, but only after the GET was made and the gate
    released; with a 403 answer the format is not looked at and the call
    raises [Forbidden]. *)
Lemma unknown_format_checked_after_get :
  unrecognised (PyStr "xml") /\
  request "/key" (PyStr "xml") (client 3 [answer 200 plenty])
  = (mkHTTPClient 3 (mkRateLimiter false 1 [1]) []
       [EvAcquire; get_key; EvRelease 0],
     Raised (ValueError format_msg)) /\
  In get_key
     (log (fst (request "/key" (PyStr "xml") (client 3 [answer 200 plenty])))) /\
  snd (request "/key" (PyStr "xml") (client 3 [answer 403 plenty]))
  = Raised (Lib Forbidden [Some (reply (answer 403 plenty))]).
Proof.
  split; [exact xml_unrecognised|]. split; [reflexivity|].
  split; [|reflexivity]. cbn. right. left. reflexivity.
Qed.

(** C3 (amended): an unrecognised [response_format] is found out by
    [response_as], that is after a GET has returned a 2xx response and the
    gate has been released: a first answer in the 2xx range makes the call
    raise the format [ValueError] with the GET and the release in the log,
    and whenever [request] raises that error a GET has been made. *)
Theorem unknown_format_raises_after_success endpoint response_format :
  unrecognised response_format ->
  (forall self rl x rest rem rst,
      1 <= retry_attempts self ->
      Limiter.acquire (ratelimiter self) = Some rl ->
      session self = x :: rest ->
      rl_remaining_requests (headers (reply x)) = inr rem ->
      rl_reset_after (headers (reply x)) = inr rst ->
      200 <= status (reply x) < 300 ->
      request endpoint response_format self
      = (mkHTTPClient (retry_attempts self)
           (Limiter.release (sleep_for (status (reply x)) rem rst)
                            (Limiter.tick (took x) rl))
           rest
           (log self ++ [EvAcquire; EvGet (url_of endpoint);
                         EvRelease (sleep_for (status (reply x)) rem rst)]),
         Raised (ValueError format_msg))) /\
  (forall self self',
      request endpoint response_format self
        = (self', Raised (ValueError format_msg)) ->
      exists evs,
        log self' = log self ++ evs /\ In (EvGet (url_of endpoint)) evs).
Proof.
  intros Hfmt. split.
  - intros self rl x rest rem rst Hn Hacq Hs Hrem Hrst Hst.
    apply request_first; [exact Hn|].
    rewrite (attempt_success endpoint response_format 0 self rl x rest
               Hacq Hs rem rst Hrem Hrst Hst).
    now rewrite (response_as_unrecognised _ _ Hfmt).
  - intros self self' H. eapply request_value_error_after_get. exact H.
Qed.

Lemma unknown_format_raises_after_success_witness :
  exists evs,
    log (fst (request "/key" (PyStr "xml") (client 3 [answer 200 plenty])))
      = log (client 3 [answer 200 plenty]) ++ evs /\
    In get_key evs.
Proof.
  destruct (unknown_format_raises_after_success "/key" (PyStr "xml")
              xml_unrecognised) as [Hfirst Hget].
  apply Hget.
  rewrite (Hfirst (client 3 [answer 200 plenty]) (Limiter.init 0)
             (answer 200 plenty) [] 5 30);
    [reflexivity | cbn; lia | reflexivity | reflexivity | reflexivity
    | reflexivity | cbn; lia].
Defined.

(** C1 (as stated, refuted): two attempts, answered 500 and then 429.  The
    first turn acquires the gate and never releases it; the second acquires
    once and is followed by three releases (the [retry-after] one, the one
    of the last attempt, the one after the loop).  Answered 500 twice, the
    second turn is followed by two releases. *)
Lemma releases_do_not_match_acquires :
  let limited := request "/key" (PyStr "json")
                   (client 2 [answer 500 plenty; answer 429 retry_later]) in
  let failed := request "/key" (PyStr "json")
                  (client 2 [answer 500 plenty; answer 500 plenty]) in
  log (fst limited)
  = [EvAcquire; get_key;
     EvAcquire; get_key; EvRelease 10; EvRelease 0; EvRelease 0] /\
  release_counts (log (fst limited)) = [0; 3]%nat /\
  ~ Forall (fun c => c = 1%nat) (release_counts (log (fst limited))) /\
  log (fst failed)
  = [EvAcquire; get_key; EvAcquire; get_key; EvRelease 3; EvRelease 0] /\
  release_counts (log (fst failed)) = [0; 2]%nat.
Proof.
  cbn. split; [reflexivity|]. split; [reflexivity|].
  split; [|split; reflexivity].
  intros H. inversion H; discriminate.
Qed.

(** C1 (amended): a turn of the loop whose response has a status below 500
    and well-formed rate-limit headers, and that is not a 429 on the last
    attempt, makes exactly one release between its acquire and its return
    (2xx), its raise (other statuses) or the next acquire (429). *)
Theorem one_release_per_settled_turn
    endpoint response_format attempt self rl x rest rem rst :
  Limiter.acquire (ratelimiter self) = Some rl ->
  session self = x :: rest ->
  rl_remaining_requests (headers (reply x)) = inr rem ->
  rl_reset_after (headers (reply x)) = inr rst ->
  status (reply x) < 500 ->
  (status (reply x) = 429 ->
   attempt <> retry_attempts self - 1 /\
   exists u, rl_unlock_after (headers (reply x)) = inr u) ->
  exists d o,
    request_attempt endpoint response_format attempt self
    = (mkHTTPClient (retry_attempts self)
         (Limiter.release d (Limiter.tick (took x) rl)) rest
         (log self ++ [EvAcquire; EvGet (url_of endpoint); EvRelease d]),
       o) /\
    release_counts [EvAcquire; EvGet (url_of endpoint); EvRelease d] = [1%nat] /\
    (200 <= status (reply x) < 300 ->
     o = step_of (response_as (reply x) response_format)) /\
    (status (reply x) = 429 -> o = Returned (Continue 429 (reply x))) /\
    (~ 200 <= status (reply x) < 300 -> status (reply x) <> 429 ->
     o = Raised (Lib (error_for (status (reply x))) [Some (reply x)])).
Proof.
  intros Hacq Hs Hrem Hrst H500 H429.
  destruct (Z.eq_dec (status (reply x)) 429) as [E|E].
  - destruct (H429 E) as (Hlast & u & Hu).
    exists u, (Returned (Continue 429 (reply x))).
    rewrite (attempt_rate_limited endpoint response_format attempt self rl x rest
               Hacq Hs rem rst Hrem Hrst u E Hu Hlast).
    repeat split; try reflexivity; intros; lia.
  - destruct (Z_le_dec 200 (status (reply x))) as [L|L];
      [destruct (Z_lt_dec (status (reply x)) 300) as [U|U]|].
    + eexists _, _.
      rewrite (attempt_success endpoint response_format attempt self rl x rest
                 Hacq Hs rem rst Hrem Hrst (conj L U)).
      repeat split; try reflexivity; intros; lia.
    + eexists _, _.
      rewrite (attempt_client_error endpoint response_format attempt self rl x rest
                 Hacq Hs rem rst Hrem Hrst) by lia.
      repeat split; try reflexivity; intros; lia.
    + eexists _, _.
      rewrite (attempt_client_error endpoint response_format attempt self rl x rest
                 Hacq Hs rem rst Hrem Hrst) by lia.
      repeat split; try reflexivity; intros; lia.
Qed.

Lemma one_release_per_settled_turn_witness :
  exists d o,
    request_attempt "/key" (PyStr "json") 0
                    (client 3 [answer 429 retry_later; answer 200 plenty])
    = (mkHTTPClient 3 (Limiter.release d (Limiter.tick 1 (Limiter.init 0)))
         [answer 200 plenty] ([] ++ [EvAcquire; get_key; EvRelease d]),
       o) /\
    release_counts [EvAcquire; get_key; EvRelease d] = [1%nat] /\
    (429 = 429 -> o = Returned (Continue 429 (reply (answer 429 retry_later)))).
Proof.
  destruct (one_release_per_settled_turn "/key" (PyStr "json") 0
              (client 3 [answer 429 retry_later; answer 200 plenty])
              (Limiter.init 0) (answer 429 retry_later) [answer 200 plenty] 0 10)
    as (d & o & Hrun & Hcount & _ & Hlimited & _);
    [reflexivity | reflexivity | reflexivity | reflexivity | cbn; lia
    | intros _; split; [cbn; lia | exists 10; reflexivity] |].
  exists d, o. split; [exact Hrun|]. split; [exact Hcount|exact Hlimited].
Defined.

(** C4 (the code at the failing input and beyond): when every attempt is
    answered by a server error, the call raises [HypixelServerError] after
    exactly [retry_attempts] GETs, and the only releases are the one of the
    last attempt, with delay [1 + (retry_attempts - 1) * 2], and the one
    after the loop, with delay 0.  The back-off of the earlier attempts is
    computed and dropped: no release is made between two attempts. *)
Theorem server_errors_release_once_at_the_end
    endpoint response_format self xs rest :
  1 <= retry_attempts self ->
  List.length xs = Z.to_nat (retry_attempts self) ->
  session self = xs ++ rest ->
  Forall server_error xs ->
  awake (ratelimiter self) ->
  exists self' evs,
    request endpoint response_format self
      = (self', Raised (Lib HypixelServerError [])) /\
    session self' = rest /\
    log self' = log self ++ evs /\
    gets evs = Z.to_nat (retry_attempts self) /\
    releases evs = [1 + (retry_attempts self - 1) * 2; 0].
Proof.
  intros Hn Hlen Hs Hall Haw.
  destruct (request_server_errors endpoint response_format self xs rest
              Hn Hlen Hs Hall Haw) as (rl' & Hrun).
  eexists _, _. split; [exact Hrun|]. split; [reflexivity|].
  split; [reflexivity|]. split.
  - rewrite gets_app, gets_get_events. cbn. lia.
  - rewrite releases_app, releases_get_events. reflexivity.
Qed.

Lemma plenty_server_error st : 500 <= st -> server_error (answer st plenty).
Proof.
  intros H. split; [exact H|]. exists 5, 30. split; reflexivity.
Qed.

Lemma server_errors_release_once_at_the_end_witness :
  exists self' evs,
    request "/key" (PyStr "json")
            (client 3 [answer 500 plenty; answer 500 plenty; answer 500 plenty])
      = (self', Raised (Lib HypixelServerError [])) /\
    session self' = [] /\
    log self' = [] ++ evs /\
    gets evs = 3%nat /\
    releases evs = [5; 0].
Proof.
  apply (server_errors_release_once_at_the_end "/key" (PyStr "json")
           (client 3 [answer 500 plenty; answer 500 plenty; answer 500 plenty])
           [answer 500 plenty; answer 500 plenty; answer 500 plenty] []).
  - cbn. lia.
  - reflexivity.
  - reflexivity.
  - repeat constructor; apply plenty_server_error; lia.
  - apply init_awake.
Defined.

(** C9 (the code at the failing input and beyond): the [HypixelServerError]
    raised when the attempts run out on server errors is built with no
    argument, so it carries no response. *)
Theorem server_error_carries_no_response
    endpoint response_format self xs rest :
  1 <= retry_attempts self ->
  List.length xs = Z.to_nat (retry_attempts self) ->
  session self = xs ++ rest ->
  Forall server_error xs ->
  awake (ratelimiter self) ->
  exists args,
    snd (request endpoint response_format self)
      = Raised (Lib HypixelServerError args) /\
    forall r, ~ In (Some r) args.
Proof.
  intros Hn Hlen Hs Hall Haw.
  destruct (request_server_errors endpoint response_format self xs rest
              Hn Hlen Hs Hall Haw) as (rl' & Hrun).
  exists []. rewrite Hrun. split; [reflexivity|]. intros r [].
Qed.

Lemma server_error_carries_no_response_witness :
  exists args,
    snd (request "/key" (PyStr "json")
           (client 3 [answer 500 plenty; answer 500 plenty; answer 500 plenty]))
      = Raised (Lib HypixelServerError args) /\
    forall r, ~ In (Some r) args.
Proof.
  apply (server_error_carries_no_response "/key" (PyStr "json")
           (client 3 [answer 500 plenty; answer 500 plenty; answer 500 plenty])
           [answer 500 plenty; answer 500 plenty; answer 500 plenty] []).
  - cbn. lia.
  - reflexivity.
  - reflexivity.
  - repeat constructor; apply plenty_server_error; lia.
  - apply init_awake.
Defined.












Lemma retry_later_rate_limited : rate_limited (answer 429 retry_later) 10.
Proof.
  split; [reflexivity|]. split; [|reflexivity].
  exists 0, 10. split; reflexivity.
Qed.


(** * Further properties *)

(** ** The limiter over time *)

Module LimiterRuns.
Import Limiter.

Lemma earliest_least d ds : forall t, In t (d :: ds) -> earliest d ds <= t.
Proof.
  revert d. induction ds as [|d' ds IH]; intros d t Ht; cbn [earliest].
  - destruct Ht as [<-|[]]. lia.
  - assert (Hmin : earliest (Z.min d d') ds <= Z.min d d')
      by (apply IH; now left).
    destruct Ht as [<-|[<-|Ht]]; [lia|lia|].
    apply IH. now right.
Qed.

Lemma run_due_now rl : now (run_due rl) = now rl.
Proof. unfold run_due. now destruct (existsb _ _). Qed.








End LimiterRuns.
Import LimiterRuns.

(** X1: a task that waits on a closed gate is woken when the first pending
    reopen is due (at once if that is already past): the flag is then set,
    the clock stands at that time, which no pending timer precedes, and
    the timers left are all still in the future. *)
Theorem acquire_wakes_at_earliest_timer rl d ds :
  lock rl = false ->
  timers rl = d :: ds ->
  exists rl',
    Limiter.acquire rl = Some rl' /\
    lock rl' = true /\
    now rl' = Z.max (now rl) (Limiter.earliest d ds) /\
    In (Limiter.earliest d ds) (timers rl) /\
    (forall t, In t (timers rl) -> Limiter.earliest d ds <= t) /\
    (forall t, In t (timers rl') <-> In t (timers rl) /\ now rl' < t).
Proof.
  intros Hlock Ht.
  destruct (acquire_awake rl) as (rl' & Hacq & Hl').
  { right. rewrite Ht. discriminate. }
  exists rl'. split; [exact Hacq|]. split; [exact Hl'|].
  unfold Limiter.acquire in Hacq. rewrite Hlock, Ht in Hacq.
  injection Hacq as <-. rewrite Ht.
  split; [apply run_due_now|]. split; [apply earliest_in|].
  split; [apply earliest_least|].
  intros t. rewrite run_due_now. cbn [now].
  unfold Limiter.run_due. cbn [now timers lock].
  destruct (existsb _ _) eqn:E.
  - cbn [timers]. rewrite filter_In, Z.ltb_lt. reflexivity.
  - exfalso. assert (H : existsb (fun t0 => t0 <=? Z.max (now rl) (Limiter.earliest d ds))
                               (d :: ds) = true).
    { apply existsb_exists. exists (Limiter.earliest d ds).
      split; [apply earliest_in|apply Z.leb_le; lia]. }
    congruence.
Qed.

Lemma acquire_wakes_at_earliest_timer_witness :
  exists rl',
    Limiter.acquire (mkRateLimiter false 2 [9; 4; 7]) = Some rl' /\
    lock rl' = true /\ now rl' = 4.
Proof.
  destruct (acquire_wakes_at_earliest_timer (mkRateLimiter false 2 [9; 4; 7]) 9 [4; 7])
    as (rl' & Hacq & Hlock & Hnow & _); [reflexivity|reflexivity|].
  exists rl'. split; [exact Hacq|]. split; [exact Hlock|exact Hnow].
Defined.



(** ** Every turn of the loop, whatever the answer *)

(** The limiter after the releases of a turn, made in order. *)
Definition released (ds : list Z) (rl : RateLimiter) : RateLimiter :=
  fold_left (fun r d => Limiter.release d r) ds rl.

(** The ways a turn that got an answer can end: the delays it releases
    the gate with, and what it hands to the loop. *)
Inductive Turn (response_format : PyVal) (attempt n : Z) (r : ClientResponse)
    : list Z -> Outcome Step -> Prop :=
| TurnConversion v e :
    py_int v = inl e ->
    Turn response_format attempt n r [] (Raised e)
| TurnSuccess d o :
    200 <= status r < 300 ->
    o = step_of (response_as r response_format) ->
    Turn response_format attempt n r [d] o
| TurnClientError d :
    ~ 200 <= status r < 300 -> status r < 500 -> status r <> 429 ->
    Turn response_format attempt n r [d]
         (Raised (Lib (error_for (status r)) [Some r]))
| TurnLimited u :
    status r = 429 -> attempt <> n - 1 ->
    Turn response_format attempt n r [u] (Returned (Continue (status r) r))
| TurnLimitedLast u :
    status r = 429 -> attempt = n - 1 ->
    Turn response_format attempt n r [u; 0] (Returned (Continue (status r) r))
| TurnServerError :
    500 <= status r -> attempt <> n - 1 ->
    Turn response_format attempt n r [] (Returned (Continue (status r) r))
| TurnServerErrorLast :
    500 <= status r -> attempt = n - 1 ->
    Turn response_format attempt n r [1 + attempt * 2]
         (Returned (Continue (status r) r)).

Ltac bool_props :=
  repeat match goal with
    | H : (_ && _) = true |- _ => apply andb_true_iff in H; destruct H
    | H : (_ && _) = false |- _ => apply andb_false_iff in H; destruct H
    | H : negb _ = true |- _ => apply negb_true_iff in H
    | H : negb _ = false |- _ => apply negb_false_iff in H
    | H : (_ <=? _) = true |- _ => apply Z.leb_le in H
    | H : (_ <=? _) = false |- _ => apply Z.leb_gt in H
    | H : (_ <? _) = true |- _ => apply Z.ltb_lt in H
    | H : (_ <? _) = false |- _ => apply Z.ltb_ge in H
    | H : (_ =? _) = true |- _ => apply Z.eqb_eq in H
    | H : (_ =? _) = false |- _ => apply Z.eqb_neq in H
    end.

Ltac split_turn :=
  repeat (cbn -[error_for Z.add Z.mul Z.sub];
          first
            [ match goal with
              | |- context [Limiter.acquire ?rl] =>
                  destruct (Limiter.acquire rl) eqn:?
              end
            | match goal with
              | |- context [match session ?s with _ => _ end] =>
                  destruct (session s) eqn:?
              end
            | match goal with
              | |- context [py_int ?v] => destruct (py_int v) eqn:?
              end
            | match goal with
              | |- context [response_as ?r ?f] =>
                  destruct (response_as r f) eqn:?
              end
            | match goal with
              | |- context [if ?b then _ else _] => destruct b eqn:?
              end ]).

Ltac turn_case :=
  first
    [ eapply TurnConversion; eassumption
    | eapply TurnSuccess;
      [ lia
      | match goal with H : response_as _ _ = _ |- _ => rewrite H end;
        reflexivity ]
    | eapply TurnLimited; lia
    | eapply TurnLimitedLast; lia
    | eapply TurnServerError; lia
    | eapply TurnServerErrorLast; lia
    | eapply TurnClientError; lia ].

Lemma attempt_shape endpoint response_format attempt self self' o :
  request_attempt endpoint response_format attempt self = (self', o) ->
  (Limiter.acquire (ratelimiter self) = None /\ o = Suspended /\ self' = self) \/
  exists rl,
    Limiter.acquire (ratelimiter self) = Some rl /\
    ((session self = [] /\ o = Raised ClientConnectionError /\
      self' = mkHTTPClient (retry_attempts self) rl []
                (log self ++ [EvAcquire; EvGet (url_of endpoint)])) \/
     exists x rest ds,
       session self = x :: rest /\
       Turn response_format attempt (retry_attempts self) (reply x) ds o /\
       self' = mkHTTPClient (retry_attempts self)
                 (released ds (Limiter.tick (took x) rl)) rest
                 (log self ++ EvAcquire :: EvGet (url_of endpoint)
                    :: map EvRelease ds)).
Proof.
  unfold request_attempt, bind, acquire, session_get, lift,
    rl_remaining_requests, rl_reset_after, rl_unlock_after, release, ret, raise.
  split_turn; intros [= <- <-]; bool_props; try (exfalso; lia);
    try (left; repeat split; reflexivity);
    right; eexists; (split; [reflexivity|]);
    try (left; split; [reflexivity|]; split; [reflexivity|];
         unfold with_log, with_limiter; cbn -[error_for];
         match goal with H : session _ = [] |- _ => rewrite H end;
         rewrite <- app_assoc; reflexivity);
    right; do 3 eexists; (split; [reflexivity|]);
    (split;
     [ turn_case
     | unfold with_log, with_limiter, released; cbn -[error_for Z.add Z.mul];
       repeat rewrite <- app_assoc; reflexivity ]).
Qed.

(** ** What a whole call can and cannot do *)

Fixpoint acquires (evs : list Event) : nat :=
  match evs with
  | [] => 0
  | EvAcquire :: evs' => S (acquires evs')
  | _ :: evs' => acquires evs'
  end.

(** The event is not a GET to another URL. *)
Definition get_goes_to (url : string) (e : Event) : Prop :=
  match e with
  | EvGet u => u = url
  | _ => True
  end.

Lemma acquires_app a b : acquires (a ++ b) = (acquires a + acquires b)%nat.
Proof.
  induction a as [|[| |d] a IH]; cbn; [reflexivity| |exact IH|exact IH].
  now rewrite IH.
Qed.

Lemma gets_releases ds : gets (map EvRelease ds) = 0%nat.
Proof. induction ds as [|d ds IH]; [reflexivity|exact IH]. Qed.

Lemma acquires_releases ds : acquires (map EvRelease ds) = 0%nat.
Proof. induction ds as [|d ds IH]; [reflexivity|exact IH]. Qed.


Lemma get_goes_to_releases url ds : Forall (get_goes_to url) (map EvRelease ds).
Proof. induction ds as [|d ds IH]; constructor; [exact I|exact IH]. Qed.

(** What a run added to the log and took from the script. *)
Record Trace (endpoint : string) (budget : nat) (self self' : HTTPClient)
    (used : list Exchange) (evs : list Event) : Prop := mkTrace {
  trace_attempts : retry_attempts self' = retry_attempts self;
  trace_session : session self = used ++ session self';
  trace_log : log self' = log self ++ evs;
  trace_pairs : gets evs = acquires evs;
  trace_budget : (gets evs <= budget)%nat;
  trace_used : (List.length used <= gets evs)%nat;
  trace_url : Forall (get_goes_to (url_of endpoint)) evs
}.

Lemma attempt_trace endpoint response_format attempt self self' o :
  request_attempt endpoint response_format attempt self = (self', o) ->
  exists used evs, Trace endpoint 1 self self' used evs.
Proof.
  intros H. apply attempt_shape in H.
  destruct H as [(_ & _ & ->)|(rl & _ & [(Hs & _ & ->)|(x & rest & ds & Hs & _ & ->)])].
  - exists [], []. split; cbn; try reflexivity; try lia; try constructor.
    now rewrite app_nil_r.
  - exists [], [EvAcquire; EvGet (url_of endpoint)].
    split; cbn; try reflexivity; try lia; [exact Hs|].
    repeat constructor.
  - exists [x], (EvAcquire :: EvGet (url_of endpoint) :: map EvRelease ds).
    split; cbn; try reflexivity; try (rewrite ?gets_releases, ?acquires_releases; lia);
      [exact Hs|].
    constructor; [exact I|]. constructor; [reflexivity|].
    apply get_goes_to_releases.
Qed.

Lemma trace_seq endpoint b1 b2 s0 s1 s2 used1 evs1 used2 evs2 :
  Trace endpoint b1 s0 s1 used1 evs1 ->
  Trace endpoint b2 s1 s2 used2 evs2 ->
  Trace endpoint (b1 + b2) s0 s2 (used1 ++ used2) (evs1 ++ evs2).
Proof.
  intros [A1 S1 L1 P1 B1 U1 G1] [A2 S2 L2 P2 B2 U2 G2]. split.
  - congruence.
  - rewrite S1, S2. now rewrite app_assoc.
  - rewrite L2, L1. now rewrite app_assoc.
  - rewrite gets_app, acquires_app. lia.
  - rewrite gets_app. lia.
  - rewrite length_app, gets_app. lia.
  - apply Forall_app. split; assumption.
Qed.

Lemma trace_weaken endpoint b b' s0 s1 used evs :
  (b <= b')%nat -> Trace endpoint b s0 s1 used evs -> Trace endpoint b' s0 s1 used evs.
Proof. intros Hb [A S L P B U G]. split; try assumption. lia. Qed.

Lemma trace_nil endpoint self : Trace endpoint 0 self self [] [].
Proof.
  split; cbn; try reflexivity; try lia; [now rewrite app_nil_r|constructor].
Qed.

Lemma loop_trace endpoint response_format attempts :
  forall status response self self' o,
    request_loop endpoint response_format attempts status response self
      = (self', o) ->
    exists used evs, Trace endpoint (List.length attempts) self self' used evs.
Proof.
  induction attempts as [|attempt attempts IH]; intros status response self self' o.
  - cbn. unfold ret. intros [= <- <-]. exists [], []. apply trace_nil.
  - cbn [request_loop List.length]. unfold bind.
    destruct (request_attempt endpoint response_format attempt self)
      as [s1 o1] eqn:H1.
    apply attempt_trace in H1. destruct H1 as (used1 & evs1 & T1).
    assert (Hstop : exists used evs,
               Trace endpoint (S (List.length attempts)) self s1 used evs).
    { exists used1, evs1. eapply trace_weaken; [|exact T1]. lia. }
    destruct o1 as [[v|status1 response1]|e|];
      try (unfold ret; intros [= <- <-]; exact Hstop).
    intros H. apply IH in H. destruct H as (used2 & evs2 & T2).
    exists (used1 ++ used2), (evs1 ++ evs2).
    exact (trace_seq _ _ _ _ _ _ _ _ _ _ T1 T2).
Qed.













(** ** Where the results of a call come from *)

Lemma py_int_not_lib v e cls args : py_int v = inl e -> e <> Lib cls args.
Proof.
  destruct v as [|z|s]; cbn.
  - intros [= <-]. discriminate.
  - discriminate.
  - destruct (int_of_str s); [discriminate|]. intros [= <-]. discriminate.
Qed.

Lemma response_as_not_lib r response_format e cls args :
  response_as r response_format = Raised e -> e <> Lib cls args.
Proof.
  unfold response_as, response_json.
  repeat match goal with
         | |- context [if ?b then _ else _] => destruct b
         | |- context [match json_ r with _ => _ end] => destruct (json_ r) as [[]|]
         end; intros [= <-]; discriminate.
Qed.

Lemma error_for_classes status :
  error_for status = HTTPException \/ error_for status = DataMissing \/
  error_for status = Forbidden \/ error_for status = DataInvalid \/
  error_for status = TooManyRequests.
Proof.
  unfold error_for.
  change (dict_get ERRORS (KStr "_") HTTPException) with HTTPException.
  unfold ERRORS. cbn [dict_get key_eqb].
  destruct (400 =? status); [tauto|]. destruct (403 =? status); [tauto|].
  destruct (422 =? status); [tauto|]. destruct (429 =? status); tauto.
Qed.

(** The log of [self'] is the log of [self] with more events, the last of
    which is a release. *)
Definition ends_released (self self' : HTTPClient) : Prop :=
  exists evs d, log self' = log self ++ evs ++ [EvRelease d].

Lemma ends_released_later self s1 self' evs1 :
  log s1 = log self ++ evs1 -> ends_released s1 self' -> ends_released self self'.
Proof.
  intros H1 (evs & d & H). exists (evs1 ++ evs), d.
  rewrite H, H1. now rewrite <- !app_assoc.
Qed.

(** A status that sends the loop to its next turn. *)
Definition retried_status (s : Z) : Prop := s = 429 \/ 500 <= s.

(** What a result of the loop, or of one turn, says about the answers. *)
Definition from_answer (response_format : PyVal) (self self' : HTTPClient)
    (x : Exchange) (o : Outcome Step) : Prop :=
  match o with
  | Returned (Return v) =>
      200 <= status (reply x) < 300 /\
      response_as (reply x) response_format = Returned v /\
      ends_released self self'
  | Returned (Continue s r) =>
      r = reply x /\ s = status r /\ retried_status s
  | Raised (Lib cls args) =>
      args = [Some (reply x)] /\ cls = error_for (status (reply x)) /\
      ~ 200 <= status (reply x) < 300 /\ status (reply x) < 500 /\
      status (reply x) <> 429 /\
      ends_released self self'
  | _ => True
  end.

Lemma attempt_outcome endpoint response_format attempt self self' o :
  request_attempt endpoint response_format attempt self = (self', o) ->
  (session self' = session self /\
   (forall v, o <> Returned (Return v)) /\
   (forall s r, o <> Returned (Continue s r)) /\
   (forall cls args, o <> Raised (Lib cls args))) \/
  exists x,
    session self = x :: session self' /\
    from_answer response_format self self' x o.
Proof.
  intros H. apply attempt_shape in H.
  destruct H as [(_ & -> & ->)|(rl & _ & [(Hs & -> & ->)|(x & rest & ds & Hs & Ht & ->)])].
  - left. repeat split; discriminate.
  - left. cbn. rewrite Hs. repeat split; discriminate.
  - right. exists x. split; [exact Hs|].
    assert (Hrel : forall d ds',
               ds = d :: ds' ->
               ends_released self
                 (mkHTTPClient (retry_attempts self)
                    (released ds (Limiter.tick (took x) rl)) rest
                    (log self ++ EvAcquire :: EvGet (url_of endpoint)
                       :: map EvRelease ds))).
    { intros d ds' ->. destruct (exists_last (l := d :: ds')) as (l & d' & ->);
        [discriminate|].
      exists (EvAcquire :: EvGet (url_of endpoint) :: map EvRelease l), d'.
      cbn [log]. rewrite map_app. reflexivity. }
    destruct Ht as [v e Hv|d o' Hst ->|d Hn2 H5 H4|u H4 Hl|u H4 Hl|H5 Hl|H5 Hl];
      cbn [from_answer].
    + destruct e; try exact I.
      exfalso. exact (py_int_not_lib _ _ _ _ Hv eq_refl).
    + destruct (response_as (reply x) response_format) as [v|e|] eqn:Hr; cbn.
      * repeat split; try lia; try assumption. eapply Hrel; reflexivity.
      * destruct e; try exact I.
        exfalso. exact (response_as_not_lib _ _ _ _ _ Hr eq_refl).
      * exact I.
    + repeat split; try assumption. eapply Hrel; reflexivity.
    + repeat split. now left.
    + repeat split. now left.
    + repeat split. now right.
    + repeat split. now right.
Qed.

Definition loop_from_answers (response_format : PyVal) (attempts : list Z)
    (status : option Z) (response : option ClientResponse)
    (self self' : HTTPClient)
    (o : Outcome (Payload + option Z * option ClientResponse)) : Prop :=
  match o with
  | Returned (inl v) =>
      exists x, In x (session self) /\
                from_answer response_format self self' x (Returned (Return v))
  | Returned (inr (status', response')) =>
      (attempts = [] /\ status' = status /\ response' = response) \/
      exists x, In x (session self) /\
                status' = Some (Response.status (reply x)) /\
                response' = Some (reply x) /\
                retried_status (Response.status (reply x))
  | Raised (Lib cls args) =>
      exists x, In x (session self) /\
                from_answer response_format self self' x (Raised (Lib cls args))
  | _ => True
  end.

Lemma loop_outcome endpoint response_format attempts :
  forall status response self self' o,
    request_loop endpoint response_format attempts status response self
      = (self', o) ->
    loop_from_answers response_format attempts status response self self' o.
Proof.
  induction attempts as [|attempt attempts IH]; intros status response self self' o.
  - cbn. unfold ret. intros [= <- <-]. left. repeat split.
  - cbn [request_loop]. unfold bind.
    destruct (request_attempt endpoint response_format attempt self)
      as [s1 o1] eqn:H1.
    destruct (attempt_trace _ _ _ _ _ _ H1) as (used1 & evs1 & T1).
    apply attempt_outcome in H1.
    destruct H1 as [(_ & Hv & Hc & Hlib)|(x & Hs & Hfrom)].
    + destruct o1 as [[v|status1 response1]|e|].
      * now destruct (Hv v).
      * now destruct (Hc status1 response1).
      * intros [= <- <-]. destruct e; try exact I. now destruct (Hlib cls args).
      * intros [= <- <-]. exact I.
    + assert (Hin : In x (session self)) by (rewrite Hs; now left).
      destruct o1 as [[v|status1 response1]|e|].
      * unfold ret. intros [= <- <-]. exists x. split; assumption.
      * intros H. apply IH in H. cbn in Hfrom. destruct Hfrom as (-> & -> & Hre).
        unfold loop_from_answers in *.
        destruct o as [[v|[status' response']]|e|]; try exact I.
        -- destruct H as (y & Hy & H2 & H3 & Hrel). exists y.
           split; [rewrite Hs; now right|]. refine (conj H2 (conj H3 _)).
           eapply ends_released_later; [exact (trace_log _ _ _ _ _ _ T1)|exact Hrel].
        -- right. destruct H as [(_ & -> & ->)|(y & Hy & H)].
           ++ exists x. split; [exact Hin|]. split; [reflexivity|].
              split; [reflexivity|exact Hre].
           ++ exists y. split; [rewrite Hs; now right|exact H].
        -- destruct e; try exact I.
           destruct H as (y & Hy & H2 & H3 & H4 & H5 & H6 & Hrel). exists y.
           split; [rewrite Hs; now right|].
           refine (conj H2 (conj H3 (conj H4 (conj H5 (conj H6 _))))).
           eapply ends_released_later; [exact (trace_log _ _ _ _ _ _ T1)|exact Hrel].
      * intros [= <- <-]. destruct e; try exact I. exists x. split; assumption.
      * intros [= <- <-]. exact I.
Qed.

(** X6: where a library error of [request] comes from.  It is raised after
    a release of the gate, and it is either a [HypixelServerError] without
    arguments, and then the script held an answer with a status of 500 or
    more, or the class that [ERRORS] gives for the status of an answer of
    the script, built with that very response, whose status is below 500
    and outside [200, 300).  The base class [AIOHypixelException] itself
    is never raised. *)
Theorem library_errors_of_request endpoint response_format self self' cls args :
  request endpoint response_format self = (self', Raised (Lib cls args)) ->
  ends_released self self' /\
  cls <> AIOHypixelException /\
  ((cls = HypixelServerError /\ args = [] /\
    exists x, In x (session self) /\ 500 <= status (reply x)) \/
   (exists x, In x (session self) /\
              args = [Some (reply x)] /\
              cls = error_for (status (reply x)) /\
              ~ 200 <= status (reply x) < 300 /\
              status (reply x) < 500)).
Proof.
  unfold request, bind at 1.
  destruct (request_loop _ _ _ _ _ self) as [s o] eqn:Hloop.
  destruct (loop_trace _ _ _ _ _ _ _ _ Hloop) as (used & evs & T).
  apply loop_outcome in Hloop.
  assert (Hcls : forall st, error_for st <> AIOHypixelException).
  { intros st. destruct (error_for_classes st) as [E|[E|[E|[E|E]]]];
      rewrite E; discriminate. }
  destruct o as [[v|[st rsp]]|e|]; try discriminate.
  - unfold bind, release, lift, py_ge, ret, raise. cbn [loop_from_answers] in Hloop.
    assert (Hrel : ends_released self
                     (with_log (EvRelease 0)
                        (with_limiter (Limiter.release 0 (ratelimiter s)) s))).
    { exists evs, 0. cbn. now rewrite (trace_log _ _ _ _ _ _ T), <- app_assoc. }
    destruct st as [st|]; [|discriminate].
    destruct Hloop as [(_ & [=] & _)|(x & Hin & [= ->] & -> & Hre)].
    destruct (Z.leb_spec 500 (status (reply x))); intros [= <- <- <-].
    + split; [exact Hrel|]. split; [discriminate|]. left.
      split; [reflexivity|]. split; [reflexivity|]. exists x. now split.
    + split; [exact Hrel|]. split; [apply Hcls|]. right. exists x.
      split; [exact Hin|]. split; [reflexivity|]. split; [reflexivity|].
      destruct Hre as [E|E]; lia.
  - intros [= <- ->]. cbn in Hloop.
    destruct Hloop as (x & Hin & -> & -> & Hn2 & H5 & _ & Hrel).
    split; [exact Hrel|]. split; [apply Hcls|]. right. exists x.
    split; [exact Hin|]. split; [reflexivity|]. split; [reflexivity|].
    split; assumption.
Qed.

Lemma library_errors_of_request_witness :
  ends_released
    (client 2 [answer 503 plenty; answer 429 retry_later])
    (fst (request "/key" (PyStr "json")
            (client 2 [answer 503 plenty; answer 429 retry_later]))) /\
  TooManyRequests <> AIOHypixelException.
Proof.
  destruct (library_errors_of_request "/key" (PyStr "json")
              (client 2 [answer 503 plenty; answer 429 retry_later])
              (fst (request "/key" (PyStr "json")
                      (client 2 [answer 503 plenty; answer 429 retry_later])))
              TooManyRequests [Some (reply (answer 429 retry_later))])
    as (Hrel & Hcls & _); [reflexivity|].
  split; [exact Hrel|exact Hcls].
Defined.

Lemma request_returned endpoint response_format self self' v :
  request endpoint response_format self = (self', Returned v) ->
  exists x,
    In x (session self) /\
    200 <= status (reply x) < 300 /\
    response_as (reply x) response_format = Returned v /\
    ends_released self self'.
Proof.
  unfold request, bind at 1.
  destruct (request_loop _ _ _ _ _ self) as [s o] eqn:Hloop.
  apply loop_outcome in Hloop.
  destruct o as [[v0|[st rsp]]|e|]; try discriminate.
  - unfold ret. intros [= <- <-]. destruct Hloop as (x & Hin & H). exists x.
    split; [exact Hin|exact H].
  - unfold bind, release, lift, py_ge, ret, raise.
    destruct st as [st|]; [destruct (500 <=? st)|]; discriminate.
Qed.

(** X7: [request] returns a value only for an answer of the script with a
    status in [200, 300): the value is what [response_as] gives for that
    response, and the gate has been released before the return. *)
Theorem payload_comes_from_a_success endpoint response_format self self' v :
  request endpoint response_format self = (self', Returned v) ->
  exists x,
    In x (session self) /\
    200 <= status (reply x) < 300 /\
    response_as (reply x) response_format = Returned v /\
    ends_released self self'.
Proof. apply request_returned. Qed.

Lemma payload_comes_from_a_success_witness :
  exists x,
    In x [answer 429 retry_later; answer 200 plenty] /\
    200 <= status (reply x) < 300 /\
    response_as (reply x) (PyStr "json") = Returned (PJson (JObject [])).
Proof.
  destruct (payload_comes_from_a_success "/key" (PyStr "json")
              (client 3 [answer 429 retry_later; answer 200 plenty])
              (fst (request "/key" (PyStr "json")
                      (client 3 [answer 429 retry_later; answer 200 plenty])))
              (PJson (JObject [])))
    as (x & Hin & Hst & Hr & _); [reflexivity|].
  exists x. split; [exact Hin|]. split; [exact Hst|exact Hr].
Defined.

(** X8: a 429 answer must carry [retry-after] even when it has
    [ratelimit-reset]: without it [int(None)] raises [TypeError] in the
    429 branch, after the GET, and the turn releases nothing; as the first
    answer this ends the call without another attempt. *)
Theorem rate_limited_needs_retry_after
    endpoint response_format attempt self rl x rest rem rst :
  Limiter.acquire (ratelimiter self) = Some rl ->
  session self = x :: rest ->
  status (reply x) = 429 ->
  rl_remaining_requests (headers (reply x)) = inr rem ->
  rl_reset_after (headers (reply x)) = inr rst ->
  getone (headers (reply x)) "retry-after" = None ->
  let self' :=
    mkHTTPClient (retry_attempts self) (Limiter.tick (took x) rl) rest
      (log self ++ [EvAcquire; EvGet (url_of endpoint)]) in
  request_attempt endpoint response_format attempt self
    = (self', Raised (TypeError int_none_msg)) /\
  (1 <= retry_attempts self ->
   request endpoint response_format self
     = (self', Raised (TypeError int_none_msg))).
Proof.
  intros Hacq Hs Hst Hrem Hrst Hnone self'.
  assert (Hu : rl_unlock_after (headers (reply x)) = inl (TypeError int_none_msg)).
  { unfold rl_unlock_after, headers_get. now rewrite Hnone. }
  assert (Hturn : forall a,
             request_attempt endpoint response_format a self
             = (self', Raised (TypeError int_none_msg))).
  { intros a.
    exact (attempt_rate_limited_bad_header endpoint response_format a self rl x rest
             Hacq Hs rem rst Hrem Hrst _ Hst Hu). }
  split; [apply Hturn|].
  intros Hn. apply (request_first_raises _ _ _ _ _ Hn). apply Hturn.
Qed.

Lemma rate_limited_needs_retry_after_witness :
  request "/key" (PyStr "json") (client 3 [answer 429 used_up; answer 200 plenty])
  = (mkHTTPClient 3 (Limiter.tick 1 (Limiter.init 0)) [answer 200 plenty]
       ([] ++ [EvAcquire; get_key]),
     Raised (TypeError int_none_msg)).
Proof.
  destruct (rate_limited_needs_retry_after "/key" (PyStr "json") 0
              (client 3 [answer 429 used_up; answer 200 plenty]) (Limiter.init 0)
              (answer 429 used_up) [answer 200 plenty] 0 30)
    as [_ Hrun];
    [reflexivity | reflexivity | reflexivity | reflexivity | reflexivity
    | reflexivity |].
  apply Hrun. cbn. lia.
Defined.

(** ** Runs that mix 429 and server errors *)

(** An answer after which the loop goes on, with what a turn that is not
    the last releases for it. *)
Inductive Retried : Exchange -> list Z -> Prop :=
| RetriedLimited x u : rate_limited x u -> Retried x [u]
| RetriedFailed x : server_error x -> Retried x [].

Definition turn_events (endpoint : string) (ds : list Z) : list Event :=
  EvAcquire :: EvGet (url_of endpoint) :: map EvRelease ds.

Lemma client_eta self :
  mkHTTPClient (retry_attempts self) (ratelimiter self) (session self) (log self)
  = self.
Proof. now destruct self. Qed.

Section MixedRuns.

Variables (endpoint : string) (response_format : PyVal).


(** What the last turn and the code after the loop add to the log, and
    what the call raises, for the answer to the last attempt. *)
Inductive GivesUp (n : Z) (xl : Exchange) : list Z -> PyExc -> Prop :=
| GivesUpFailed :
    server_error xl ->
    GivesUp n xl [1 + (n - 1) * 2; 0] (Lib HypixelServerError [])
| GivesUpLimited u :
    rate_limited xl u ->
    GivesUp n xl [u; 0; 0] (Lib TooManyRequests [Some (reply xl)]).


End MixedRuns.







(** * client.py and types/key.py *)

Module Facade.

(** types/key.py: the dataclass checks nothing, each field holds the value
    found in the document. *)
Record Key : Type := mkKey {
  key : JSON;
  owner : JSON;
  limit : JSON;
  queries_in_past_minute : JSON;
  total_queries : JSON
}.

(** What [get_key_info] can raise on top of what [request] raises. *)
Inductive ClientExc : Type :=
| FromRequest (e : PyExc)
| KeyError (k : string).

Inductive Result (A : Type) : Type :=
| Ok (a : A)
| Fails (e : ClientExc)
| Hangs.
Arguments Ok {A} a.
Arguments Fails {A} e.
Arguments Hangs {A}.

(** The value a [dict] built from the members holds for a key: later
    members replace earlier ones with the same key. *)
Fixpoint lookup (members : list (string * JSON)) (k : string) : option JSON :=
  match members with
  | [] => None
  | (k', v) :: members' =>
      match lookup members' k with
      | Some w => Some w
      | None => if String.eqb k' k then Some v else None
      end
  end.

Definition subscript_msg (what : string) : string :=
  ("'" ++ what ++ "' object is not subscriptable")%string.

(** [obj[k]] for a [str] key on a decoded document. *)
Definition getitem (obj : JSON) (k : string) : ClientExc + JSON :=
  match obj with
  | JObject members =>
      match lookup members k with
      | Some v => inr v
      | None => inl (KeyError k)
      end
  | JArray _ =>
      inl (FromRequest (TypeError "list indices must be integers or slices, not str"))
  | JString _ =>
      inl (FromRequest (TypeError "string indices must be integers, not 'str'"))
  | JNumber _ => inl (FromRequest (TypeError (subscript_msg "int")))
  | JBool _ => inl (FromRequest (TypeError (subscript_msg "bool")))
  | JNull => inl (FromRequest (TypeError (subscript_msg "NoneType")))
  end.

(** [obj[k]] on whatever [request] returned. *)
Definition payload_getitem (p : Payload) (k : string) : ClientExc + JSON :=
  match p with
  | PJson j => getitem j k
  | PText _ =>
      inl (FromRequest (TypeError "string indices must be integers, not 'str'"))
  | PBytes _ =>
      inl (FromRequest (TypeError "byte indices must be integers or slices, not str"))
  | PResponse _ => inl (FromRequest (TypeError (subscript_msg "ClientResponse")))
  end.

Definition andThen {A B} (r : ClientExc + A) (k : A -> Result B) : Result B :=
  match r with
  | inl e => Fails e
  | inr a => k a
  end.

(** The lines of [get_key_info] after the request: [response["record"]]
    and the five subscripts, evaluated left to right. *)
Definition key_of (response : Payload) : Result Key :=
  andThen (payload_getitem response "record") (fun data =>
  andThen (getitem data "key") (fun k =>
  andThen (getitem data "owner") (fun o =>
  andThen (getitem data "limit") (fun l =>
  andThen (getitem data "queriesInPastMin") (fun q =>
  andThen (getitem data "totalQueries") (fun t =>
  Ok (mkKey k o l q t))))))).

Record AIOHypixelClient : Type := mkClient {
  token : string;
  http : HTTPClient
}.

(** [AIOHypixelClient.__init__] at time [t]: the [HTTPClient] is built with
    the default [retry_attempts]; [script] is what the session will
    answer. *)
Definition init (token : string) (t : Z) (script : list Exchange)
    : AIOHypixelClient :=
  mkClient token (mkHTTPClient 3 (Limiter.init t) script []).

(** [AIOHypixelClient.get_key_info] *)
Definition get_key_info (self : AIOHypixelClient)
    : AIOHypixelClient * Result Key :=
  match request "/key" (PyStr "json") (http self) with
  | (http', Returned response) => (mkClient (token self) http', key_of response)
  | (http', Raised e) => (mkClient (token self) http', Fails (FromRequest e))
  | (http', Suspended) => (mkClient (token self) http', Hangs)
  end.

End Facade.
Import Facade.

Lemma response_as_json r v :
  response_as r (PyStr "json") = Returned v ->
  exists j, json_ r = inr j /\ v = PJson j.
Proof.
  change (response_as r (PyStr "json")) with (response_json r).
  unfold response_json. destruct (json_ r) as [e|j]; [discriminate|].
  intros [= <-]. now exists j.
Qed.

Definition wanted : list string :=
  ["key"; "owner"; "limit"; "queriesInPastMin"; "totalQueries"].

(** X11: [get_key_info] returns a [Key] only when an answer of the script
    had a status in [200, 300) and a JSON body that is an object with a
    ["record"] member holding the five members; the fields of the [Key]
    are then the values of [key], [owner], [limit], [queriesInPastMin]
    and [totalQueries], in that order, unchecked, and the gate has been
    released. *)
Theorem key_comes_from_the_record self self' k :
  get_key_info self = (self', Ok k) ->
  exists x j data,
    In x (session (http self)) /\
    200 <= status (reply x) < 300 /\
    json_ (reply x) = inr j /\
    getitem j "record" = inr data /\
    map (getitem data) wanted
    = [inr (key k); inr (owner k); inr (limit k);
       inr (queries_in_past_minute k); inr (total_queries k)] /\
    ends_released (http self) (http self').
Proof.
  unfold get_key_info.
  destruct (request "/key" (PyStr "json") (http self)) as [http' o] eqn:Hrun.
  destruct o as [response|e|]; [|discriminate|discriminate].
  intros [= <- Hkey].
  apply request_returned in Hrun. destruct Hrun as (x & Hin & Hst & Hr & Hrel).
  apply response_as_json in Hr. destruct Hr as (j & Hj & ->).
  unfold key_of, andThen in Hkey. cbn [payload_getitem] in Hkey.
  destruct (getitem j "record") as [?|data] eqn:Hd; [discriminate|].
  destruct (getitem data "key") as [?|k0] eqn:H0; [discriminate|].
  destruct (getitem data "owner") as [?|k1] eqn:H1; [discriminate|].
  destruct (getitem data "limit") as [?|k2] eqn:H2; [discriminate|].
  destruct (getitem data "queriesInPastMin") as [?|k3] eqn:H3; [discriminate|].
  destruct (getitem data "totalQueries") as [?|k4] eqn:H4; [discriminate|].
  injection Hkey as <-.
  exists x, j, data. cbn [map wanted key owner limit queries_in_past_minute
                           total_queries http].
  rewrite H0, H1, H2, H3, H4. repeat split; try assumption; apply Hst.
Qed.

Definition key_record : JSON :=
  JObject [("key", JString "k-1"); ("owner", JString "o-1");
           ("limit", JNumber 120); ("queriesInPastMin", JNumber 4);
           ("totalQueries", JNumber 90)].

Definition key_answer (status : Z) (record : JSON) : Exchange :=
  mkExchange 1 (mkResponse status plenty [] ""
                  (inr (JObject [("success", JBool true); ("record", record)]))).

Lemma key_comes_from_the_record_witness :
  exists x j data,
    In x [answer 500 plenty; key_answer 200 key_record] /\
    200 <= status (reply x) < 300 /\
    json_ (reply x) = inr j /\
    getitem j "record" = inr data /\
    map (getitem data) wanted
    = [inr (JString "k-1"); inr (JString "o-1"); inr (JNumber 120);
       inr (JNumber 4); inr (JNumber 90)].
Proof.
  destruct (key_comes_from_the_record
              (init "token" 0 [answer 500 plenty; key_answer 200 key_record])
              (fst (get_key_info
                      (init "token" 0 [answer 500 plenty; key_answer 200 key_record])))
              (mkKey (JString "k-1") (JString "o-1") (JNumber 120)
                     (JNumber 4) (JNumber 90)))
    as (x & j & data & Hin & Hst & Hj & Hd & Hm & _); [reflexivity|].
  exists x, j, data. repeat split; try assumption; apply Hst.
Defined.

(** X12: when the document that [request] returned has a ["record"]
    object, [get_key_info] raises [KeyError] for the first of [key],
    [owner], [limit], [queriesInPastMin], [totalQueries] that the record
    lacks; when the document is an object without ["record"] it raises
    [KeyError] for ["record"].  Either way the request itself has gone
    through: its log and limiter are those of the successful call, and no
    other attempt is made. *)
Theorem missing_member_raises_key_error self http' j :
  request "/key" (PyStr "json") (http self) = (http', Returned (PJson j)) ->
  (forall members,
      j = JObject members -> lookup members "record" = None ->
      get_key_info self
      = (mkClient (token self) http', Fails (KeyError "record"))) /\
  (forall members before m after,
      getitem j "record" = inr (JObject members) ->
      wanted = before ++ m :: after ->
      Forall (fun m' => lookup members m' <> None) before ->
      lookup members m = None ->
      get_key_info self = (mkClient (token self) http', Fails (KeyError m))).
Proof.
  intros Hrun. unfold get_key_info. rewrite Hrun. split.
  - intros members -> Hnone. unfold key_of. cbn. now rewrite Hnone.
  - intros members before m after Hd Hw Hbefore Hnone.
    f_equal. unfold key_of. cbn [payload_getitem]. rewrite Hd. cbn [andThen getitem].
    unfold wanted in Hw.
    assert (Hfound : forall m', In m' before ->
               exists v, lookup members m' = Some v).
    { intros m' Hin. rewrite Forall_forall in Hbefore.
      specialize (Hbefore m' Hin). destruct (lookup members m'); [eauto|congruence]. }
    repeat (destruct before as [|? before];
            [ injection Hw as <- <-; now rewrite Hnone
            | injection Hw as <- Hw;
              destruct (Hfound _ (or_introl eq_refl)) as (? & ->); cbn [andThen];
              assert (Hfound' : forall m', In m' before ->
                         exists v, lookup members m' = Some v)
                by (intros m' Hin; apply Hfound; now right);
              clear Hfound; rename Hfound' into Hfound ]).
    destruct before; discriminate.
Qed.

Lemma missing_member_raises_key_error_witness :
  get_key_info
    (init "token" 0
       [key_answer 200 (JObject [("key", JString "k-1"); ("owner", JString "o-1")])])
  = (mkClient "token"
       (fst (request "/key" (PyStr "json")
               (http (init "token" 0
                  [key_answer 200
                     (JObject [("key", JString "k-1"); ("owner", JString "o-1")])])))),
     Fails (KeyError "limit")).
Proof.
  destruct (missing_member_raises_key_error
              (init "token" 0
                 [key_answer 200
                    (JObject [("key", JString "k-1"); ("owner", JString "o-1")])])
              (fst (request "/key" (PyStr "json")
                      (http (init "token" 0
                         [key_answer 200
                            (JObject [("key", JString "k-1");
                                      ("owner", JString "o-1")])]))))
              (JObject [("success", JBool true);
                        ("record", JObject [("key", JString "k-1");
                                            ("owner", JString "o-1")])]))
    as [_ H]; [reflexivity|].
  apply (H [("key", JString "k-1"); ("owner", JString "o-1")]
           ["key"; "owner"] "limit" ["queriesInPastMin"; "totalQueries"]).
  - reflexivity.
  - reflexivity.
  - repeat constructor; discriminate.
  - reflexivity.
Defined.




(** ** How long a call that gives up takes *)

Definition total (l : list Z) : Z := fold_right Z.add 0 l.

Lemma total_app a b : total (a ++ b) = total a + total b.
Proof.
  unfold total. induction a as [|z a IH]; cbn; [reflexivity|]. rewrite IH. lia.
Qed.

Lemma tick_quiet dt t :
  Limiter.tick dt (mkRateLimiter true t []) = mkRateLimiter true (t + dt) [].
Proof. reflexivity. Qed.

Section Clock.

Variables (endpoint : string) (response_format : PyVal).

(** The pauses of a run: what the waits after its releases add up to. *)
Definition pauses (dss : list (list Z)) : Z :=
  total (map (Z.max 0) (List.concat dss)).

Lemma loop_retried_clock :
  forall xs dss, Forall2 Retried xs dss ->
  forall k self status response later rest_attempts t,
    Z.of_nat k + Z.of_nat (List.length xs) < retry_attempts self ->
    session self = xs ++ later ->
    Limiter.acquire (ratelimiter self) = Some (mkRateLimiter true t []) ->
    exists rl' status' response',
      Limiter.acquire rl'
      = Some (mkRateLimiter true (t + total (map took xs) + pauses dss) []) /\
      request_loop endpoint response_format
        (map Z.of_nat (seq k (List.length xs)) ++ rest_attempts)
        status response self
      = request_loop endpoint response_format rest_attempts status' response'
          (mkHTTPClient (retry_attempts self) rl' later
             (log self ++ flat_map (turn_events endpoint) dss)).
Proof.
  induction 1 as [|x ds xs dss Hx Hall IH];
    intros k self status response later rest_attempts t Hn Hs Hacq.
  - exists (ratelimiter self), status, response. split.
    + rewrite Hacq. unfold pauses. cbn. do 2 f_equal. lia.
    + cbn [List.length seq map app flat_map]. rewrite app_nil_r.
      cbn [app] in Hs. rewrite <- Hs, client_eta. reflexivity.
  - cbn [List.length] in Hn |- *. rewrite attempts_cons.
    cbn [app request_loop]. unfold bind at 1.
    destruct Hx as [x u (Hst & (rem & rst & Hrem & Hrst) & Hu)
                   |x (Hst & (rem & rst & Hrem & Hrst))].
    + rewrite (attempt_rate_limited endpoint response_format _ self _ x
                 (xs ++ later) Hacq Hs rem rst Hrem Hrst u Hst Hu) by lia.
      rewrite tick_quiet.
      edestruct (IH (S k)
                   (mkHTTPClient (retry_attempts self)
                      (Limiter.release u (mkRateLimiter true (t + took x) []))
                      (xs ++ later)
                      (log self ++ [EvAcquire; EvGet (url_of endpoint);
                                    EvRelease u]))
                   (Some 429) (Some (reply x)) later rest_attempts
                   (t + took x + Z.max 0 u))
        as (rl' & st' & rsp' & Hacq' & Hloop).
      * cbn [retry_attempts]. lia.
      * reflexivity.
      * cbn [ratelimiter]. unfold Limiter.release. cbn [now timers app].
        rewrite acquire_one_timer. do 2 f_equal. lia.
      * exists rl', st', rsp'. split.
        -- rewrite Hacq'. unfold pauses. cbn [map List.concat app total fold_right].
           do 2 f_equal. fold (total (map took xs)).
           fold (total (map (Z.max 0) (List.concat dss))). lia.
        -- etransitivity; [exact Hloop|].
           cbn [retry_attempts log flat_map turn_events map].
           now rewrite <- app_assoc.
    + rewrite (attempt_server_error endpoint response_format _ self _ x
                 (xs ++ later) Hacq Hs rem rst Hrem Hrst Hst) by lia.
      rewrite tick_quiet.
      edestruct (IH (S k)
                   (mkHTTPClient (retry_attempts self)
                      (mkRateLimiter true (t + took x) [])
                      (xs ++ later)
                      (log self ++ [EvAcquire; EvGet (url_of endpoint)]))
                   (Some (Response.status (reply x))) (Some (reply x)) later
                   rest_attempts (t + took x))
        as (rl' & st' & rsp' & Hacq' & Hloop).
      * cbn [retry_attempts]. lia.
      * reflexivity.
      * reflexivity.
      * exists rl', st', rsp'. split.
        -- rewrite Hacq'. unfold pauses. cbn [map List.concat app total fold_right].
           do 2 f_equal. fold (total (map took xs)).
           fold (total (map (Z.max 0) (List.concat dss))). lia.
        -- etransitivity; [exact Hloop|].
           cbn [retry_attempts log flat_map turn_events map].
           now rewrite <- app_assoc.
Qed.

(** X15: the time a call that gives up has taken.  On a limiter with the
    gate open and nothing pending, the clock at the raise stands at the
    start plus the durations of the exchanges plus the [retry-after] of
    every 429 that was not the last answer (negative values count as 0).
    A server error adds no pause: the attempt after it starts as soon as
    its answer is in, and nothing of the back-off is ever waited for
    inside the call. *)
Theorem retries_pause_only_after_429
    self xs dss xl ds e rest t :
  1 <= retry_attempts self ->
  Z.of_nat (List.length xs) + 1 = retry_attempts self ->
  session self = xs ++ xl :: rest ->
  Forall2 Retried xs dss ->
  GivesUp (retry_attempts self) xl ds e ->
  ratelimiter self = mkRateLimiter true t [] ->
  exists self',
    request endpoint response_format self = (self', Raised e) /\
    now (ratelimiter self') = t + total (map took (xs ++ [xl])) + pauses dss.
Proof.
  intros Hn Hlen Hs Hall Hlast Hq.
  destruct (loop_retried_clock xs dss Hall 0%nat self None None (xl :: rest)
              [retry_attempts self - 1] t)
    as (rl1 & st1 & rsp1 & Hacq & Hloop);
    [lia|exact Hs|now rewrite Hq|].
  assert (Hrange : range (retry_attempts self)
                   = map Z.of_nat (seq 0 (List.length xs)) ++ [retry_attempts self - 1]).
  { unfold range. replace (Z.to_nat (retry_attempts self))
      with (List.length xs + 1)%nat by lia.
    rewrite seq_app, map_app. cbn. do 2 f_equal. lia. }
  unfold request. rewrite Hrange. unfold bind at 1. rewrite Hloop.
  cbn [request_loop]. unfold bind at 1.
  set (s1 := mkHTTPClient (retry_attempts self) rl1 (xl :: rest)
               (log self ++ flat_map (turn_events endpoint) dss)).
  rewrite map_app, total_app. cbn [map total fold_right].
  destruct Hlast as [(Hst & (rem & rst & Hrem & Hrst))
                    |u (Hst & (rem & rst & Hrem & Hrst) & Hu)].
  - rewrite (attempt_server_error_last endpoint response_format
               (retry_attempts self - 1) s1 _ xl rest
               Hacq eq_refl rem rst Hrem Hrst Hst eq_refl).
    unfold bind, release, lift, py_ge, with_log, with_limiter, ret, raise.
    cbn [retry_attempts ratelimiter session log s1].
    destruct (Z.leb_spec 500 (status (reply xl))); [|lia].
    eexists. split; [reflexivity|]. rewrite tick_quiet.
    cbn [ratelimiter now Limiter.release]. lia.
  - rewrite (attempt_rate_limited_last endpoint response_format
               (retry_attempts self - 1) s1 _ xl rest
               Hacq eq_refl rem rst Hrem Hrst u Hst Hu eq_refl).
    unfold bind, release, lift, py_ge, with_log, with_limiter, ret, raise.
    cbn [retry_attempts ratelimiter session log s1].
    eexists. split; [reflexivity|]. rewrite tick_quiet.
    cbn [ratelimiter now Limiter.release]. lia.
Qed.

End Clock.

Lemma retries_pause_only_after_429_witness :
  exists self',
    request "/key" (PyStr "json")
            (client 3 [answer 500 plenty; answer 429 retry_later; answer 502 plenty])
      = (self', Raised (Lib HypixelServerError [])) /\
    now (ratelimiter self')
    = 0 + total (map took ([answer 500 plenty; answer 429 retry_later]
                             ++ [answer 502 plenty]))
        + pauses [[]; [10]].
Proof.
  apply (retries_pause_only_after_429 "/key" (PyStr "json")
           (client 3 [answer 500 plenty; answer 429 retry_later; answer 502 plenty])
           [answer 500 plenty; answer 429 retry_later] [[]; [10]]
           (answer 502 plenty) [1 + (3 - 1) * 2; 0] (Lib HypixelServerError []) [] 0).
  - cbn. lia.
  - reflexivity.
  - reflexivity.
  - constructor; [apply RetriedFailed; apply plenty_server_error; lia|].
    constructor; [apply RetriedLimited; apply retry_later_rate_limited|].
    constructor.
  - apply (GivesUpFailed 3). apply plenty_server_error. lia.
  - reflexivity.
Defined.


